(** * History extraction of [src/git_analyzer.py]

    A shallow embedding of [GitAnalyzer] (commit window, per-commit
    statistics, per-file change records) and the properties of its entry
    points, followed by the callers in [main.py] and the parts of
    [content_generator.py] and [post_formatter.py] that work on its records.

    Python values are modelled as follows.
    - [str] is the list of its code points, [bytes] a list of [byte];
    - [None]-or-string attributes are [option str], with Python truthiness;
    - a [dict] read with [.get(key, default)] is a [gmap];
    - [datetime] values are microsecond counts on the naive local time line;
      the offset of the local zone depends on the instant, and the start of
      the window is subject to the bounds of [timedelta] and [datetime];
    - a statement that may raise lives in the monad [M], which threads the
      records written to [logger] and carries the exception, if any. *)

From Stdlib Require Import ZArith List Bool Lia.
From Stdlib Require Import Strings.Ascii Strings.String Strings.Byte.
From stdpp Require Import base option list gmap.
Import ListNotations.
Local Open Scope Z_scope.

(** ** Python strings and bytes *)

Definition str : Type := list Z.
Definition bytes : Type := list byte.

(** An ASCII literal as a [str]. *)
Definition lit (s : string) : str :=
  List.map (fun a => Z.of_N (N_of_ascii a)) (list_ascii_of_string s).

Definition byte_val (b : byte) : Z := Z.of_N (Byte.to_N b).

(** Truthiness of an attribute that holds [None] or a string. *)
Definition truthy (x : option str) : bool :=
  match x with
  | Some (_ :: _) => true
  | _ => false
  end.

(** [x or y] *)
Definition py_or (x y : option str) : option str :=
  if truthy x then x else y.

(** [str.isspace] on one code point. *)
Definition is_space (c : Z) : bool :=
  ((9 <=? c) && (c <=? 13)) || ((28 <=? c) && (c <=? 32))
  || (c =? 133) || (c =? 160) || (c =? 5760)
  || ((8192 <=? c) && (c <=? 8202))
  || (c =? 8232) || (c =? 8233) || (c =? 8239) || (c =? 8287) || (c =? 12288).

Fixpoint lstrip (s : str) : str :=
  match s with
  | c :: s' => if is_space c then lstrip s' else s
  | [] => []
  end.

(** [s.strip()] *)
Definition strip (s : str) : str := rev (lstrip (rev (lstrip s))).

(** ** Exceptions, the logger and the monad *)

Inductive exn : Type :=
  | AttributeError
  | TypeError
  | ValueError
  | UnicodeDecodeError
  | OverflowError
  | BadName
  | GitCommandError.

Inductive result (A : Type) : Type :=
  | Ok (a : A)
  | Raised (e : exn).
Arguments Ok {A} a.
Arguments Raised {A} e.

(** The interpolated fields of the four messages the module logs. *)
Inductive log_record : Type :=
  | InfoRecentCommits (days : Z) (found : nat)
  | ErrorCommitQuery (e : exn)
  | ErrorFileChanges (e : exn)
  | ErrorExtractFileChange (e : exn).

Definition is_error (r : log_record) : bool :=
  match r with
  | InfoRecentCommits _ _ => false
  | _ => true
  end.

Definition log : Type := list log_record.

Definition M (A : Type) : Type := log -> result A * log.

Definition ret {A} (a : A) : M A := fun l => (Ok a, l).
Definition raise {A} (e : exn) : M A := fun l => (Raised e, l).
Definition bind {A B} (m : M A) (k : A -> M B) : M B :=
  fun l => match m l with
           | (Ok a, l') => k a l'
           | (Raised e, l') => (Raised e, l')
           end.
Definition lift {A} (r : result A) : M A := fun l => (r, l).

(** Sequencing of two steps that may raise and do not log. *)
Definition rbind {A B} (r : result A) (k : A -> result B) : result B :=
  match r with
  | Ok a => k a
  | Raised e => Raised e
  end.

(** [try: body / except Exception as e: handler e] *)
Definition try_except {A} (body : M A) (handler : exn -> M A) : M A :=
  fun l => match body l with
           | (Ok a, l') => (Ok a, l')
           | (Raised e, l') => handler e l'
           end.

(** [try: body / except AttributeError: handler] *)
Definition except_AttributeError {A} (body : M A) (handler : M A) : M A :=
  try_except body
    (fun e => match e with AttributeError => handler | _ => raise e end).

(** [try: body / except TypeError: handler] *)
Definition except_TypeError {A} (body : M A) (handler : M A) : M A :=
  try_except body
    (fun e => match e with TypeError => handler | _ => raise e end).

Definition logger (r : log_record) : M unit := fun l => (Ok tt, l ++ [r]).

Notation "x <~ m ;; k" := (bind m (fun x => k))
  (at level 100, m at level 99, k at level 200, right associativity).
Notation "m ;;; k" := (bind m (fun _ => k))
  (at level 100, k at level 200, right associativity).

(** ** [bytes.decode('utf-8', errors=...)]

    The decoder of the Python runtime, which the module calls with
    [errors='ignore'].  It reads the input left to right and cuts it into
    decoded code points and malformed ranges; a malformed range is the
    longest prefix of an ill-formed sequence that could still have started a
    well-formed one (one byte for an invalid start byte), and the byte that
    broke the sequence is read again as a start byte.  The error handler
    decides what a malformed range becomes. *)

Inductive piece : Type :=
  | Decoded (cp : Z)
  | Malformed (range : bytes).

Inductive dstate : Type :=
  | Start
  | Pending (need : nat) (cp lo hi : Z) (seen : bytes).

(** A start byte: ASCII, the lead of a 2, 3 or 4 byte sequence with the
    bounds of its second byte, or an invalid start byte. *)
Definition start_byte (b : byte) : dstate * list piece :=
  let c := byte_val b in
  if c <? 128 then (Start, [Decoded c])
  else if c <? 194 then (Start, [Malformed [b]])
  else if c <? 224 then (Pending 1 (c - 192) 128 191 [b], [])
  else if c <? 240 then
    (Pending 2 (c - 224)
       (if c =? 224 then 160 else 128) (if c =? 237 then 159 else 191) [b], [])
  else if c <? 245 then
    (Pending 3 (c - 240)
       (if c =? 240 then 144 else 128) (if c =? 244 then 143 else 191) [b], [])
  else (Start, [Malformed [b]]).

Definition decode_step (st : dstate) (b : byte) : dstate * list piece :=
  match st with
  | Start => start_byte b
  | Pending need cp lo hi seen =>
      let c := byte_val b in
      if (lo <=? c) && (c <=? hi) then
        let cp' := cp * 64 + (c - 128) in
        match need with
        | O | S O => (Start, [Decoded cp'])
        | S need' => (Pending need' cp' 128 191 (seen ++ [b]), [])
        end
      else
        let '(st', ps) := start_byte b in (st', Malformed seen :: ps)
  end.

Fixpoint utf8_pieces (st : dstate) (bs : bytes) : list piece :=
  match bs with
  | [] => match st with
          | Start => []
          | Pending _ _ _ _ seen => [Malformed seen]
          end
  | b :: bs' => let '(st', ps) := decode_step st b in ps ++ utf8_pieces st' bs'
  end.

Inductive error_handler : Type := Strict | Ignore | Replace.

(** What the handler returns for one malformed range. *)
Definition handle_error (errors : error_handler) (range : bytes) : result str :=
  match errors with
  | Strict => Raised UnicodeDecodeError
  | Ignore => Ok []
  | Replace => Ok [65533]
  end.

Fixpoint assemble (errors : error_handler) (ps : list piece) : result str :=
  match ps with
  | [] => Ok []
  | p :: ps' =>
      match (match p with
             | Decoded cp => Ok [cp]
             | Malformed range => handle_error errors range
             end) with
      | Raised e => Raised e
      | Ok s => match assemble errors ps' with
                | Raised e => Raised e
                | Ok s' => Ok (s ++ s')
                end
      end
  end.

Definition decode_utf8 (errors : error_handler) (bs : bytes) : result str :=
  assemble errors (utf8_pieces Start bs).

(** The code points of the decoded pieces, malformed ranges left out. *)
Fixpoint decoded_text (ps : list piece) : str :=
  match ps with
  | [] => []
  | Decoded cp :: ps' => cp :: decoded_text ps'
  | Malformed _ :: ps' => decoded_text ps'
  end.


(** ** The repository library, as the module reads it *)

(** The [diff] attribute of an entry: the bytes of the patch when the diff
    was made with a patch, the string [''] when it was not, or [None]. *)
Inductive diff_payload : Type :=
  | DiffBytes (bs : bytes)
  | DiffStr (s : str)
  | DiffNone.

(** One entry of [x.diff(y)].  The [a] side is the side of [x] and the [b]
    side the side of [y]; [new_file] says that the file is on the [b] side
    only and [deleted_file] that it is on the [a] side only.  The module
    calls [commit.diff(commit.parents[0])] and nothing else: there the [a]
    side is the commit, the state after the change, and the [b] side its
    first parent, the state before it; a file the commit added arrives
    flagged [deleted_file], a file it deleted flagged [new_file]; and, no
    patch being asked for, [diff] is the string [''].  [stats] is [None]
    when the entry has no such attribute. *)
Record Diff : Type := mkDiff {
  a_path : option str;
  b_path : option str;
  new_file : bool;
  deleted_file : bool;
  diff : diff_payload;
  stats : option (gmap str Z);
}.

(** [entry.diff.decode('utf-8', errors=...)]: only [bytes] has a [decode]. *)
Definition decode_body (errors : error_handler) (body : diff_payload)
  : result str :=
  match body with
  | DiffBytes bs => decode_utf8 errors bs
  | DiffStr _ | DiffNone => Raised AttributeError
  end.

#[local] Unset Elimination Schemes.
Inductive Commit : Type := mkCommit {
  hexsha : str;
  author_name : str;
  committed_date : Z;
  message : str;
  parents : list Commit;
}.
#[local] Set Elimination Schemes.

(** A value of [commit.stats.files]: a number, or the dictionary of per-file
    counters. *)
Inductive stat_value : Type :=
  | StatInt (n : Z)
  | StatDict (d : gmap str Z).

(** A lazy commit iterator: it yields commits until it is exhausted or the
    library raises. *)
Inductive commit_iter : Type :=
  | StopIteration
  | Yield (c : Commit) (rest : commit_iter)
  | IterRaise (e : exn).

Record Repo : Type := mkRepo {
  iter_commits : str -> commit_iter;
  commit : str -> result Commit;
  commit_diff : Commit -> Commit -> result (list Diff);
  commit_stats_files : Commit -> result (list (str * stat_value));
}.

(** The wall clock of one call: [datetime.now()], and the offset of the
    local zone from UTC at a given instant (seconds since the epoch), both
    in the units of [datetime]. *)
Record Clock : Type := mkClock {
  now : Z;
  utcoffset : Z -> Z;
}.

(** [datetime.fromtimestamp(ts)]: the local time at the instant [ts], for
    a commit date whose local time is a [datetime] (years 1 to 9999), as
    the dates of the commits of a history are taken to be throughout. *)
Definition fromtimestamp (clock : Clock) (ts : Z) : Z :=
  ts * 1000000 + utcoffset clock ts.

(** [datetime.min] and [datetime.max]: the first instant of year 1 and the
    last of year 9999. *)
Definition datetime_min : Z := -62135596800000000.
Definition datetime_max : Z := 253402300799999999.

(** [timedelta(days=days)]: an [OverflowError] beyond 999999999 days. *)
Definition timedelta (days : Z) : result Z :=
  if (-999999999 <=? days) && (days <=? 999999999)
  then Ok (days * 86400000000)
  else Raised OverflowError.

(** [d - delta] on a [datetime]: an [OverflowError] outside its range. *)
Definition datetime_sub (d delta : Z) : result Z :=
  let r := d - delta in
  if (datetime_min <=? r) && (r <=? datetime_max) then Ok r
  else Raised OverflowError.

(** Lines 76-77: [datetime.now() - timedelta(days=days)]. *)
Definition window_start (clock : Clock) (days : Z) : result Z :=
  rbind (timedelta days) (fun delta => datetime_sub (now clock) delta).

(** [now] less [days] days as a number, be it a [datetime] or not. *)
Definition cutoff (clock : Clock) (days : Z) : Z :=
  now clock - days * 86400000000.

(** [d.get(key, 0)] *)
Definition dict_get (d : gmap str Z) (key : str) : Z := default 0 (d !! key).

(** [entry.stats], an [AttributeError] when the attribute is missing. *)
Definition getattr_stats (change : Diff) : M (gmap str Z) :=
  match stats change with
  | Some d => ret d
  | None => raise AttributeError
  end.

(** [sum(values)]: [0 + v1 + v2 + ...], a [TypeError] at the first value
    that is not a number. *)
Fixpoint py_sum (acc : Z) (values : list stat_value) : M Z :=
  match values with
  | [] => ret acc
  | StatInt n :: values' => py_sum (acc + n) values'
  | StatDict _ :: _ => raise TypeError
  end.

(** [for x in xs: s = body s x] *)
Fixpoint for_each {A S} (body : S -> A -> M S) (xs : list A) (s : S) : M S :=
  match xs with
  | [] => ret s
  | x :: xs' => s' <~ body s x ;; for_each body xs' s'
  end.

(** ** The records *)

Module CommitInfo.
Record t : Type := mk {
  hash : str;
  author : str;
  date : Z;
  message : str;
  files_changed : list (option str);
  additions : Z;
  deletions : Z;
}.
End CommitInfo.

Module FileChange.
Record t : Type := mk {
  file_path : option str;
  change_type : str;
  additions : Z;
  deletions : Z;
  diff_content : str;
}.
End FileChange.

(** ** [GitAnalyzer] *)

Section GitAnalyzer.

Variable repo : Repo.
Variable clock : Clock.

(** The local variables [files_changed], [additions], [deletions] of
    [_extract_commit_info]. *)
Definition locals : Type := list (option str) * Z * Z.

(** Lines 117-122: the entry's counters, or nothing when it has no
    [stats]. *)
Definition add_stats (additions deletions : Z) (change : Diff) : M (Z * Z) :=
  except_AttributeError
    (st <~ getattr_stats change ;;
     ret (additions + dict_get st (lit "insertions"),
          deletions + dict_get st (lit "deletions")))
    (ret (additions, deletions)).

(** Lines 115-122: the body of the loop over the entries of the diff. *)
Definition diff_body (vars : locals) (change : Diff) : M locals :=
  let '(files_changed, additions, deletions) := vars in
  let files_changed := files_changed ++ [py_or (a_path change) (b_path change)] in
  totals <~ add_stats additions deletions change ;;
  ret (files_changed, fst totals, snd totals).

(** Lines 125-131: the branch of a commit without parents. *)
Definition root_stats (c : Commit) : M locals :=
  files <~ lift (commit_stats_files repo c) ;;
  let files_changed := List.map (fun kv => Some (fst kv)) files in
  additions <~ except_TypeError
                 (files <~ lift (commit_stats_files repo c) ;;
                  py_sum 0 (List.map snd files))
                 (ret 0) ;;
  ret (files_changed, additions, 0).

Definition _extract_commit_info (c : Commit) : M CommitInfo.t :=
  vars <~ match parents c with
          | parent :: _ =>
              entries <~ lift (commit_diff repo c parent) ;;
              for_each diff_body entries ([], 0, 0)
          | [] => root_stats c
          end ;;
  let '(files_changed, additions, deletions) := vars in
  ret (CommitInfo.mk (take 8 (hexsha c)) (author_name c)
         (fromtimestamp clock (committed_date c)) (strip (message c))
         files_changed additions deletions).

(** Lines 80-87: the loop over the commits of [main]. *)
Fixpoint scan (start_date : Z) (it : commit_iter) (commits : list CommitInfo.t)
  : M (list CommitInfo.t) :=
  match it with
  | StopIteration => ret commits
  | IterRaise e => raise e
  | Yield c rest =>
      let commit_date := fromtimestamp clock (committed_date c) in
      if commit_date <? start_date then ret commits
      else
        commit_info <~ _extract_commit_info c ;;
        scan start_date rest (commits ++ [commit_info])
  end.

Definition get_recent_commits (days : Z) : M (list CommitInfo.t) :=
  try_except
    (start_date <~ lift (window_start clock days) ;;
     commits <~ scan start_date (iter_commits repo (lit "main")) [] ;;
     logger (InfoRecentCommits days (length commits)) ;;;
     ret commits)
    (fun e => logger (ErrorCommitQuery e) ;;; ret []).

Definition _extract_file_change (d : Diff) : M (option FileChange.t) :=
  try_except
    (let file_path := py_or (a_path d) (b_path d) in
     if negb (truthy file_path) then ret None
     else
       let change_type :=
         if new_file d then lit "A"
         else if deleted_file d then lit "D"
         else lit "M" in
       diff_content <~ lift (decode_body Ignore (diff d)) ;;
       totals <~ except_AttributeError
                   (st <~ getattr_stats d ;;
                    ret (dict_get st (lit "insertions"),
                         dict_get st (lit "deletions")))
                   (ret (0, 0)) ;;
       ret (Some (FileChange.mk file_path change_type
                    (fst totals) (snd totals) diff_content)))
    (fun e => logger (ErrorExtractFileChange e) ;;; ret None).

(** Lines 160-162: the body of the loop over the entries of the diff. *)
Definition change_body (changes : list FileChange.t) (change : Diff)
  : M (list FileChange.t) :=
  file_change <~ _extract_file_change change ;;
  match file_change with
  | Some fc => ret (changes ++ [fc])
  | None => ret changes
  end.

Definition get_file_changes (commit_hash : str) : M (list FileChange.t) :=
  try_except
    (c <~ lift (commit repo commit_hash) ;;
     match parents c with
     | parent :: _ =>
         entries <~ lift (commit_diff repo c parent) ;;
         for_each change_body entries []
     | [] => ret []
     end)
    (fun e => logger (ErrorFileChanges e) ;;; ret []).

End GitAnalyzer.

(** ** Closed forms of the loops *)

Definition Zsum (ns : list Z) : Z := fold_right Z.add 0 ns.

(** The counters one diff entry contributes. *)
Definition entry_insertions (d : Diff) : Z :=
  match stats d with
  | Some st => dict_get st (lit "insertions")
  | None => 0
  end.

Definition entry_deletions (d : Diff) : Z :=
  match stats d with
  | Some st => dict_get st (lit "deletions")
  | None => 0
  end.

(** The path an entry is listed under: [a_path or b_path]. *)
Definition entry_path (d : Diff) : option str := py_or (a_path d) (b_path d).

(** What the library reports as the line total of one file: the number
    itself, or the [lines] counter of the per-file dictionary. *)
Definition reported_lines (v : stat_value) : Z :=
  match v with
  | StatInt n => n
  | StatDict d => dict_get d (lit "lines")
  end.

Definition is_number (v : stat_value) : bool :=
  match v with
  | StatInt _ => true
  | StatDict _ => false
  end.

(** A finite history in front of the rest of an iterator. *)
Definition iter_of (cs : list Commit) (rest : commit_iter) : commit_iter :=
  fold_right Yield rest cs.

(** The record of one commit, the log left aside. *)
Definition commit_info_of (repo : Repo) (clock : Clock) (c : Commit)
  : result CommitInfo.t :=
  fst (_extract_commit_info repo clock c []).

(** The record of one diff entry, the log left aside. *)
Definition file_change_of (d : Diff) : option FileChange.t :=
  match fst (_extract_file_change d []) with
  | Ok fc => fc
  | Raised _ => None
  end.

(** What one diff entry adds to the log, the record left aside. *)
Definition extract_errors (d : Diff) : list log_record :=
  snd (_extract_file_change d []).

(** The letter of the change: lines 186-191. *)
Definition change_code (d : Diff) : str :=
  if new_file d then lit "A"
  else if deleted_file d then lit "D"
  else lit "M".

Definition in_window (clock : Clock) (start_date : Z) (c : Commit) : Prop :=
  start_date <= fromtimestamp clock (committed_date c).


(** ** Sample repositories *)

(** Entries as a diff made with a patch would hand them to the module, with
    statistics attached: one flagged [new_file] with a path on the [b] side
    only, one flagged [deleted_file] with a path on the [a] side only, one
    with neither flag. *)
Definition added_entry : Diff :=
  mkDiff None (Some (lit "docs/new.md")) true false
    (DiffBytes [x2b; x68; x69]) (Some {[ lit "insertions" := 1 ]}).

Definition deleted_entry : Diff :=
  mkDiff (Some (lit "old.txt")) None false true
    (DiffBytes [x2d; x62; x79; x65])
    (Some (<[ lit "deletions" := 4 ]> {[ lit "insertions" := 0 ]})).

Definition modified_entry : Diff :=
  mkDiff (Some (lit "src/a.py")) (Some (lit "src/a.py")) false false
    (DiffBytes [x2d; x78; x0a; x2b; x79]) None.

(** The rename of [old.py] to [new.py], seen from the commit: the new
    name on the [a] side, the old one on the [b] side. *)
Definition renamed_entry : Diff :=
  mkDiff (Some (lit "new.py")) (Some (lit "old.py")) false false
    (DiffBytes []) None.

(** A patch with a byte that is not UTF-8. *)
Definition latin1_entry : Diff :=
  mkDiff (Some (lit "notes.txt")) (Some (lit "notes.txt")) false false
    (DiffBytes [x61; xff; x62]) None.

(** An entry without a path on either side. *)
Definition pathless_entry : Diff :=
  mkDiff None (Some []) false false (DiffBytes [x2b; x61]) None.

(** What [commit.diff(commit.parents[0])] reports for a commit that added
    [docs/new.md], deleted [old.txt] and modified [src/a.py]: the path on
    both sides, the flags as seen from the commit towards its parent, the
    string [''] as [diff], no [stats]. *)
Definition raw_added : Diff :=
  mkDiff (Some (lit "docs/new.md")) (Some (lit "docs/new.md")) false true
    (DiffStr []) None.

Definition raw_deleted : Diff :=
  mkDiff (Some (lit "old.txt")) (Some (lit "old.txt")) true false
    (DiffStr []) None.

Definition raw_modified : Diff :=
  mkDiff (Some (lit "src/a.py")) (Some (lit "src/a.py")) false false
    (DiffStr []) None.

Definition root_commit : Commit :=
  mkCommit (lit "1a2b3c4d5e6f708192a3") (lit "Glen") 226799
    (lit "initial commit") [].

Definition boundary_commit : Commit :=
  mkCommit (lit "2b3c4d5e6f708192a3b4") (lit "Glen") 226800
    (lit " add analyzer ") [root_commit].

Definition head_commit : Commit :=
  mkCommit (lit "3c4d5e6f708192a3b4c5") (lit "Glen") 700000
    (lit "fix stats") [boundary_commit].

Definition sample_history : commit_iter :=
  Yield head_commit (Yield boundary_commit (Yield root_commit StopIteration)).

Definition sample_lookup (commit_hash : str) : result Commit :=
  if decide (commit_hash = hexsha head_commit) then Ok head_commit
  else if decide (commit_hash = hexsha boundary_commit) then Ok boundary_commit
  else if decide (commit_hash = hexsha root_commit) then Ok root_commit
  else Raised BadName.

Definition sample_stats_files : list (str * stat_value) :=
  [ (lit "a.txt",
     StatDict (<[ lit "lines" := 2 ]> (<[ lit "insertions" := 2 ]>
                 {[ lit "deletions" := 0 ]})));
    (lit "b.txt",
     StatDict (<[ lit "lines" := 3 ]> (<[ lit "insertions" := 3 ]>
                 {[ lit "deletions" := 0 ]}))) ].

Definition sample_repo : Repo :=
  mkRepo
    (fun branch => if decide (branch = lit "main") then sample_history
                   else IterRaise GitCommandError)
    sample_lookup
    (fun _ _ => Ok [added_entry; deleted_entry; modified_entry])
    (fun _ => Ok sample_stats_files).

(** The same history in a repository where diffing the boundary commit
    fails. *)
Definition flaky_repo : Repo :=
  mkRepo (iter_commits sample_repo) sample_lookup
    (fun c _ => if decide (hexsha c = hexsha boundary_commit)
                then Raised GitCommandError
                else Ok [added_entry; deleted_entry; modified_entry])
    (fun _ => Ok sample_stats_files).

(** A repository without a [main] branch. *)
Definition unborn_repo : Repo :=
  mkRepo (fun _ => IterRaise GitCommandError) (fun _ => Raised BadName)
    (fun _ _ => Raised GitCommandError) (fun _ => Raised GitCommandError).


(** The sample history in a repository that reports its diffs as the
    library does. *)
Definition raw_repo : Repo :=
  mkRepo (iter_commits sample_repo) sample_lookup
    (fun _ _ => Ok [raw_added; raw_deleted; raw_modified])
    (fun _ => Ok sample_stats_files).

(** Ten days after the epoch, in a zone nine hours east of Greenwich all
    year. *)
Definition sample_clock : Clock := mkClock 864000000000 (fun _ => 32400000000).

(** ** Histories *)

From Stdlib Require Import Sorting.Sorted.

(** The commits an iterator yields before it stops or raises. *)
Fixpoint yielded (it : commit_iter) : list Commit :=
  match it with
  | Yield c rest => c :: yielded rest
  | StopIteration | IterRaise _ => []
  end.

(** The date [get_recent_commits] compares with the start of the window. *)
Definition commit_date (clock : Clock) (c : Commit) : Z :=
  fromtimestamp clock (committed_date c).



(** Leading and trailing white space: [s] is [pre ++ t ++ suf] with [pre]
    and [suf] made of white space only. *)
Definition trimmed_of (s t : str) : Prop :=
  exists pre suf, s = pre ++ t ++ suf
                  /\ Forall (fun c => is_space c = true) pre
                  /\ Forall (fun c => is_space c = true) suf.

(** No white space at either end. *)
Definition tight (t : str) : Prop :=
  (forall c t', t = c :: t' -> is_space c = false)
  /\ (forall c t', t = t' ++ [c] -> is_space c = false).

(** A record as [get_file_changes] may return it: a path that is neither
    [None] nor empty, and one of the three letters. *)
Definition well_formed_change (fc : FileChange.t) : Prop :=
  truthy (FileChange.file_path fc) = true
  /\ (FileChange.change_type fc = lit "A"
      \/ FileChange.change_type fc = lit "D"
      \/ FileChange.change_type fc = lit "M").


(** An entry whose [diff] is a byte string: the only kind line 194 can
    decode. *)
Definition has_patch (d : Diff) : bool :=
  match diff d with
  | DiffBytes _ => true
  | DiffStr _ | DiffNone => false
  end.

(** An entry [_extract_file_change] turns into a record: it has a path and
    its [diff] decodes. *)
Definition extracted (d : Diff) : bool := truthy (entry_path d) && has_patch d.

(** An entry [_extract_file_change] gives up with a logged error: it has a
    path and its [diff] is not a byte string. *)
Definition given_up (d : Diff) : bool :=
  truthy (entry_path d) && negb (has_patch d).

(** A Unicode scalar value: a code point that is not a surrogate. *)
Definition scalar (cp : Z) : Prop :=
  0 <= cp <= 55295 \/ 57344 <= cp <= 1114111.

(** The code points a pending sequence can still complete to, from the
    lowest to the highest, are all scalar values. *)
Definition pending_ok (st : dstate) : Prop :=
  match st with
  | Start => True
  | Pending need cp lo hi _ =>
      128 <= lo /\ hi <= 191 /\
      exists w, (need = 1%nat /\ w = 1 \/ need = 2%nat /\ w = 64
                 \/ need = 3%nat /\ w = 4096)
                /\ let low := (cp * 64 + lo - 128) * w in
                   let high := (cp * 64 + hi - 128) * w + (w - 1) in
                   (0 <= low /\ high <= 55295)
                   \/ (57344 <= low /\ high <= 1114111)
  end.

Definition piece_ok (p : piece) : Prop :=
  match p with
  | Decoded cp => scalar cp
  | Malformed _ => True
  end.

(** ** [get_repo_stats] *)

(** What [get_repo_stats] reads from the repository: the iterator over
    the whole history, the names of the branches, the name of the active
    branch (the library raises when [HEAD] is detached) and the commit
    [HEAD] points to. *)
Record RepoState : Type := mkRepoState {
  iter_all_commits : commit_iter;
  branch_names : result (list str);
  active_branch_name : result str;
  head_commit_of : result Commit;
}.

Module LastCommit.
Record t : Type := mk {
  hash : str;
  message : str;
  date : Z;
}.
End LastCommit.

(** The dictionary [get_repo_stats] builds, with its four keys. *)
Module RepoStats.
Record t : Type := mk {
  total_commits : Z;
  branches : list str;
  active_branch : str;
  last_commit : LastCommit.t;
}.
End RepoStats.

(** The record [get_repo_stats] writes to the logger of the module. *)
Inductive stats_log_record : Type :=
  | ErrorRepoStats (e : exn).

(** [list(it)] *)
Fixpoint list_of_iter (it : commit_iter) : result (list Commit) :=
  match it with
  | StopIteration => Ok []
  | Yield c rest => rbind (list_of_iter rest) (fun cs => Ok (c :: cs))
  | IterRaise e => Raised e
  end.

(** Lines 224-233: the dictionary, its values evaluated in the order they
    are written. *)
Definition repo_stats_dict (rs : RepoState) (clock : Clock)
  : result RepoStats.t :=
  rbind (list_of_iter (iter_all_commits rs)) (fun commits =>
  rbind (branch_names rs) (fun names =>
  rbind (active_branch_name rs) (fun active =>
  rbind (head_commit_of rs) (fun head1 =>
  rbind (head_commit_of rs) (fun head2 =>
  rbind (head_commit_of rs) (fun head3 =>
  Ok (RepoStats.mk (Z.of_nat (length commits)) names active
        (LastCommit.mk (take 8 (hexsha head1)) (strip (message head2))
           (fromtimestamp clock (committed_date head3)))))))))).

(** [get_repo_stats]: the dictionary, or the empty dictionary ([None]
    here) after logging the exception. *)
Definition get_repo_stats (rs : RepoState) (clock : Clock)
    (l : list stats_log_record)
  : option RepoStats.t * list stats_log_record :=
  match repo_stats_dict rs clock with
  | Ok stats => (Some stats, l)
  | Raised e => (None, l ++ [ErrorRepoStats e])
  end.


Definition sample_state : RepoState :=
  mkRepoState sample_history (Ok [lit "main"; lit "dev"]) (Ok (lit "main"))
    (Ok head_commit).

(** ** [BlogGenerator.generate_blog_post], the caller in [main.py] *)

(** A literal of the source as a [str]: the code points of its UTF-8
    bytes. *)
Definition text (s : string) : str :=
  decoded_text (utf8_pieces Start (list_byte_of_string s)).

(** The records [generate_multiple_posts] and [generate_blog_post] write to
    the logger of [main]. *)
Inductive main_log_record : Type :=
  | InfoPeriodStart (days : Z)
  | InfoPostStart (days : Z)
  | WarnNoCommits (days : Z)
  | InfoCommitsAnalysed (n : nat)
  | InfoFileChangesAnalysed (n : nat)
  | InfoContentGenerated
  | InfoPostFormatted
  | InfoPostSaved (filepath : str)
  | ErrorPostGeneration (e : exn).

(** Both loggers, the one of the analyzer and the one of [main]. *)
Definition logs : Type := log * list main_log_record.

Definition MM (A : Type) : Type := logs -> result A * logs.

Definition mret {A} (a : A) : MM A := fun s => (Ok a, s).
Definition mbind' {A B} (m : MM A) (k : A -> MM B) : MM B :=
  fun s => match m s with
           | (Ok a, s') => k a s'
           | (Raised e, s') => (Raised e, s')
           end.
(** A call into the analyzer, which writes to its own logger. *)
Definition analyzer {A} (m : M A) : MM A :=
  fun s => let '(r, l') := m (fst s) in (r, (l', snd s)).
(** A call into a collaborator: what it returns, or what it raises. *)
Definition collab {A} (r : result A) : MM A := fun s => (r, s).
Definition main_logger (r : main_log_record) : MM unit :=
  fun s => (Ok tt, (fst s, snd s ++ [r])).
Definition mtry {A} (body : MM A) (handler : exn -> MM A) : MM A :=
  fun s => match body s with
           | (Ok a, s') => (Ok a, s')
           | (Raised e, s') => handler e s'
           end.

Notation "x <~~ m ;; k" := (mbind' m (fun x => k))
  (at level 100, m at level 99, k at level 200, right associativity).
Notation "m ;;;; k" := (mbind' m (fun _ => k))
  (at level 100, k at level 200, right associativity).

Section BlogGenerator.

Variable repo : Repo.
Variable clock : Clock.

(** The content generator and the formatter, as what their calls return or
    raise: [content_generator.generate_blog_content],
    [post_formatter.format_blog_post], [generate_filename_from_title] and
    [save_blog_post]. *)
Variable generate_blog_content :
  list CommitInfo.t -> list FileChange.t -> result (gmap str str).
Variable format_blog_post : gmap str str -> result str.
Variable generate_filename_from_title : str -> result str.
Variable save_blog_post : str -> str -> result str.

(** Lines 101-107 of [main.py]: the file changes of the newest commit. *)
Definition collect_file_changes (include_file_changes : bool)
    (commits : list CommitInfo.t) : MM (list FileChange.t) :=
  match include_file_changes, commits with
  | true, latest_commit :: _ =>
      file_changes <~~ analyzer (get_file_changes repo
                                   (CommitInfo.hash latest_commit)) ;;
      main_logger (InfoFileChangesAnalysed (length file_changes)) ;;;;
      mret file_changes
  | _, _ => mret []
  end.

Definition generate_blog_post (days : Z) (include_file_changes : bool)
  : MM (option str) :=
  mtry
    (main_logger (InfoPostStart days) ;;;;
     commits <~~ analyzer (get_recent_commits repo clock days) ;;
     match commits with
     | [] => main_logger (WarnNoCommits days) ;;;; mret None
     | _ :: _ =>
         main_logger (InfoCommitsAnalysed (length commits)) ;;;;
         file_changes <~~ collect_file_changes include_file_changes commits ;;
         content_data <~~ collab (generate_blog_content commits file_changes) ;;
         main_logger InfoContentGenerated ;;;;
         formatted_post <~~ collab (format_blog_post content_data) ;;
         main_logger InfoPostFormatted ;;;;
         let title := default (text "오늘의 개발 일지")
                        (content_data !! lit "title") in
         filename <~~ collab (generate_filename_from_title title) ;;
         filepath <~~ collab (save_blog_post formatted_post filename) ;;
         main_logger (InfoPostSaved filepath) ;;;;
         mret (Some filepath)
     end)
    (fun e => main_logger (ErrorPostGeneration e) ;;;; mret None).

End BlogGenerator.

(** Collaborators that produce a post for whatever they are given. *)
Definition sample_content (commits : list CommitInfo.t)
    (file_changes : list FileChange.t) : result (gmap str str) :=
  Ok {[ lit "title" := lit "Weekly notes" ]}.

Definition sample_format (content_data : gmap str str) : result str :=
  Ok (lit "# post").

Definition sample_filename (title : str) : result str :=
  Ok (title ++ lit ".md").

Definition sample_save (content filename : str) : result str :=
  Ok (lit "./output/" ++ filename).

(** ** [PostFormatter._improve_lists] *)

(** [s.startswith(prefix)] *)
Fixpoint startswith (s prefix : str) : bool :=
  match prefix, s with
  | [], _ => true
  | p :: prefix', c :: s' => (c =? p) && startswith s' prefix'
  | _ :: _, [] => false
  end.

(** [s.split('\n')] *)
Fixpoint split_lines (s : str) : list str :=
  match s with
  | [] => [[]]
  | c :: s' =>
      if c =? 10 then [] :: split_lines s'
      else match split_lines s' with
           | line :: lines => (c :: line) :: lines
           | [] => [[c]]
           end
  end.

(** ['\n'.join(lines)] *)
Fixpoint join_lines (lines : list str) : str :=
  match lines with
  | [] => []
  | [line] => line
  | line :: lines' => line ++ 10 :: join_lines lines'
  end.

(** Truthiness of a string. *)
Definition nonempty (s : str) : bool :=
  match s with
  | [] => false
  | _ :: _ => true
  end.

(** [line.strip().startswith('- ')] *)
Definition is_item (line : str) : bool := startswith (strip line) (lit "- ").

(** Lines 172-178 of [post_formatter.py]: the body of the loop, at index
    [i] with [line = lines[i]]. *)
Definition improve_step (lines improved_lines : list str) (i : nat) (line : str)
  : list str :=
  let improved_lines := improved_lines ++ [line] in
  if is_item line && (i <? length lines - 1)%nat then
    match lines !! S i with
    | Some following =>
        let next_line := strip following in
        if nonempty next_line && negb (startswith next_line (lit "- "))
        then improved_lines ++ [[]]
        else improved_lines
    | None => improved_lines
    end
  else improved_lines.

(** [for i, line in enumerate(lines)], from index [i] on. *)
Fixpoint improve_loop (lines : list str) (i : nat) (todo improved_lines : list str)
  : list str :=
  match todo with
  | [] => improved_lines
  | line :: todo' =>
      improve_loop lines (S i) todo' (improve_step lines improved_lines i line)
  end.

Definition _improve_lists (content : str) : str :=
  let lines := split_lines content in
  join_lines (improve_loop lines 0 lines []).

(** The loop as a recursion on the lines that remain. *)
Fixpoint improve_lines (lines : list str) : list str :=
  match lines with
  | [] => []
  | line :: rest =>
      line ::
      (match rest with
       | following :: _ =>
           if is_item line && nonempty (strip following)
              && negb (is_item following)
           then [[]] else []
       | [] => []
       end) ++ improve_lines rest
  end.

(** No list item is directly followed by a line that is neither blank nor
    a list item. *)
Fixpoint spaced (lines : list str) : Prop :=
  match lines with
  | [] => True
  | line :: rest =>
      match rest with
      | following :: _ =>
          is_item line = true ->
          strip following = [] \/ is_item following = true
      | [] => True
      end /\ spaced rest
  end.

(** A list with an item directly followed by text. *)
Definition sample_notes : str :=
  lit "Changes" ++ [10] ++ lit "- fix stats" ++ [10] ++ lit "- add tests"
  ++ [10] ++ lit "Next week" ++ [10] ++ lit "  - plan" ++ [10] ++ lit "done".

(** A string without a line break. *)
Definition one_line (line : str) : Prop := Forall (fun c => c <> 10) line.


(** ** [ContentGenerator], in [content_generator.py] *)

From Stdlib Require Import DecimalString.

(** [str(n)] *)
Definition str_of_int (n : Z) : str := lit (NilZero.string_of_int (Z.to_int n)).

(** [sep.join(items)] on strings. *)
Fixpoint join_sep (sep : str) (items : list str) : str :=
  match items with
  | [] => []
  | [item] => item
  | item :: items' => item ++ sep ++ join_sep sep items'
  end.

(** The items of a sequence handed to [str.join]: a [TypeError] when one
    of them is [None]. *)
Fixpoint all_strings (items : list (option str)) : result (list str) :=
  match items with
  | [] => Ok []
  | Some item :: items' => rbind (all_strings items') (fun rest => Ok (item :: rest))
  | None :: _ => Raised TypeError
  end.

(** A value in an f-string: the string, or [None]. *)
Definition format_value (x : option str) : str :=
  match x with
  | Some s => s
  | None => lit "None"
  end.

(** [[f(x) for x in xs]], stopping at the first exception. *)
Fixpoint format_each {A} (f : A -> result str) (xs : list A) : result (list str) :=
  match xs with
  | [] => Ok []
  | x :: xs' =>
      rbind (f x) (fun s => rbind (format_each f xs') (fun ss => Ok (s :: ss)))
  end.

(** Lines 158-166 of [content_generator.py]: the prompt for the title. *)
Definition title_prompt (messages_text : str) : str :=
  [10]
  ++ text "다음 Git 커밋 메시지들을 분석하여 기술 블로그 포스트의 제목을 생성해주세요." ++ [10]
  ++ text "제목은 간결하고 명확해야 하며, 개발자가 작성한 것처럼 자연스러워야 합니다." ++ [10]
  ++ [10]
  ++ text "커밋 메시지들:" ++ [10]
  ++ messages_text ++ [10]
  ++ [10]
  ++ text "제목만 한 줄로 출력해주세요. 따옴표나 특수문자는 사용하지 마세요." ++ [10].

(** Lines 198-220 of [content_generator.py]: the prompt for the body. *)
Definition content_prompt (commit_summary : str) : str :=
  [10]
  ++ text "다음 Git 커밋 정보를 바탕으로 기술 블로그 포스트를 작성해주세요." ++ [10]
  ++ [10]
  ++ text "커밋 정보:" ++ [10]
  ++ commit_summary ++ [10]
  ++ [10]
  ++ text "다음 형식으로 작성해주세요:" ++ [10]
  ++ [10]
  ++ text "## ✨ 들어가며" ++ [10]
  ++ text "오늘 어떤 기능을 개발했는지, 혹은 어떤 버그를 수정했는지 간략하게 소개하는 문단입니다." ++ [10]
  ++ [10]
  ++ text "## 📝 주요 변경 사항" ++ [10]
  ++ text "- (관련 Git 커밋 해시) 변경된 핵심 로직이나 기능에 대해 서술합니다." ++ [10]
  ++ text "- 코드 블록을 사용해 실제 코드 변경점을 보여줍니다." ++ [10]
  ++ [10]
  ++ text "## 💡 구현 과정 및 배운 점" ++ [10]
  ++ text "개발 과정에서 겪었던 어려움, 해결 방법, 새롭게 알게 된 점 등을 자유롭게 서술합니다." ++ [10]
  ++ [10]
  ++ text "## ✅ 마무리" ++ [10]
  ++ text "다음 계획이나 소감을 짧게 남기는 문단입니다." ++ [10]
  ++ [10]
  ++ text "자연스럽고 읽기 쉬운 한국어로 작성해주세요. 기술적이면서도 친근한 톤을 유지해주세요." ++ [10].

(** Lines 240-252 of [content_generator.py]: the body returned when the
    call to the model fails. *)
Definition fallback_content (commit_summary : str) : str :=
  [10]
  ++ text "## ✨ 들어가며" ++ [10]
  ++ text "오늘 Git 커밋 정보를 분석하여 블로그 포스트를 생성하려고 했지만, 내용 생성 중 오류가 발생했습니다." ++ [10]
  ++ [10]
  ++ text "## 📝 주요 변경 사항" ++ [10]
  ++ commit_summary ++ [10]
  ++ [10]
  ++ text "## 💡 구현 과정 및 배운 점" ++ [10]
  ++ text "AI를 활용한 블로그 자동 생성 시스템을 구축하는 과정에서 다양한 도전과제를 마주했습니다." ++ [10]
  ++ [10]
  ++ text "## ✅ 마무리" ++ [10]
  ++ text "앞으로 더 나은 블로그 생성 시스템을 만들어보겠습니다." ++ [10].

(** The records [ContentGenerator] writes to its logger. *)
Inductive content_log_record : Type :=
  | InfoTitle (title : str)
  | ErrorTitle (e : exn)
  | InfoBody
  | ErrorBody (e : exn)
  | ErrorBlogContent (e : exn).

(** The two requests the generator sends to the model, each with its fixed
    system message, token limit and temperature. *)
Inductive chat_kind : Type := TitleRequest | BodyRequest.

Definition CM (A : Type) : Type :=
  list content_log_record -> result A * list content_log_record.

Definition cret {A} (a : A) : CM A := fun l => (Ok a, l).
Definition cbind {A B} (m : CM A) (k : A -> CM B) : CM B :=
  fun l => match m l with
           | (Ok a, l') => k a l'
           | (Raised e, l') => (Raised e, l')
           end.
Definition clift {A} (r : result A) : CM A := fun l => (r, l).
Definition clog (r : content_log_record) : CM unit :=
  fun l => (Ok tt, l ++ [r]).
Definition ctry {A} (body : CM A) (handler : exn -> CM A) : CM A :=
  fun l => match body l with
           | (Ok a, l') => (Ok a, l')
           | (Raised e, l') => handler e l'
           end.

Section ContentGenerator.

(** The answer of the model to a request, or the exception of the call;
    the text of [strftime('%Y-%m-%d %H:%M:%S')] for a date; the text of
    [datetime.now().isoformat()]; and [str(e)] for an exception. *)
Variable chat : chat_kind -> str -> result str.
Variable strftime : Z -> str.
Variable now_isoformat : str.
Variable exn_text : exn -> str.

(** Lines 99-106: the block of one commit. *)
Definition format_commit (commit : CommitInfo.t) : result str :=
  rbind (all_strings (CommitInfo.files_changed commit)) (fun files =>
  Ok ([10]
      ++ text "커밋: " ++ CommitInfo.hash commit ++ [10]
      ++ text "작성자: " ++ CommitInfo.author commit ++ [10]
      ++ text "날짜: " ++ strftime (CommitInfo.date commit) ++ [10]
      ++ text "메시지: " ++ CommitInfo.message commit ++ [10]
      ++ text "변경된 파일: " ++ join_sep (lit ", ") files ++ [10]
      ++ text "추가된 라인: " ++ str_of_int (CommitInfo.additions commit)
      ++ text ", 삭제된 라인: " ++ str_of_int (CommitInfo.deletions commit)
      ++ [10])).

Definition _format_commits_for_llm (commits : list CommitInfo.t) : result str :=
  match commits with
  | [] => Ok (text "최근 커밋이 없습니다.")
  | _ :: _ =>
      rbind (format_each format_commit commits) (fun formatted_commits =>
      Ok (join_lines formatted_commits))
  end.

(** Lines 126-130: the word for a change type, the letter itself when it
    is none of the three. *)
Definition change_type_text (change_type : str) : str :=
  default change_type
    ((<[ lit "A" := text "추가" ]>
        (<[ lit "M" := text "수정" ]> {[ lit "D" := text "삭제" ]}) : gmap str str)
       !! change_type).

(** Lines 132-136: the block of one file change. *)
Definition format_change (change : FileChange.t) : str :=
  [10]
  ++ text "파일: " ++ format_value (FileChange.file_path change) ++ [10]
  ++ text "변경 타입: " ++ change_type_text (FileChange.change_type change) ++ [10]
  ++ text "추가된 라인: " ++ str_of_int (FileChange.additions change)
  ++ text ", 삭제된 라인: " ++ str_of_int (FileChange.deletions change)
  ++ [10].

Definition _format_file_changes_for_llm (file_changes : list FileChange.t) : str :=
  match file_changes with
  | [] => []
  | _ :: _ => join_lines (List.map format_change file_changes)
  end.

Definition _generate_title (commits : list CommitInfo.t) : CM str :=
  match commits with
  | [] => cret (text "오늘의 개발 일지")
  | _ :: _ =>
      let commit_messages := List.map CommitInfo.message commits in
      let messages_text := join_lines commit_messages in
      let prompt := title_prompt messages_text in
      ctry
        (cbind (clift (chat TitleRequest prompt)) (fun answer =>
         let title := strip answer in
         cbind (clog (InfoTitle title)) (fun _ =>
         cret title)))
        (fun e => cbind (clog (ErrorTitle e)) (fun _ =>
                  cret (text "오늘의 개발 일지")))
  end.

Definition _generate_content (commit_summary : str) : CM str :=
  let prompt := content_prompt commit_summary in
  ctry
    (cbind (clift (chat BodyRequest prompt)) (fun answer =>
     let content := strip answer in
     cbind (clog InfoBody) (fun _ =>
     cret content)))
    (fun e => cbind (clog (ErrorBody e)) (fun _ =>
              cret (fallback_content commit_summary))).

Definition generate_blog_content (commits : list CommitInfo.t)
    (file_changes : list FileChange.t) : CM (gmap str str) :=
  ctry
    (cbind (clift (_format_commits_for_llm commits)) (fun commit_summary =>
     let commit_summary :=
       match file_changes with
       | _ :: _ =>
           let file_summary := _format_file_changes_for_llm file_changes in
           commit_summary ++ [10; 10] ++ text "파일 변경 상세:" ++ [10]
           ++ file_summary
       | [] => commit_summary
       end in
     cbind (_generate_title commits) (fun title =>
     cbind (_generate_content commit_summary) (fun content =>
     cret (<[ lit "title" := title ]>
             (<[ lit "content" := content ]>
                {[ lit "generated_at" := now_isoformat ]}))))))
    (fun e =>
       cbind (clog (ErrorBlogContent e)) (fun _ =>
       cret (<[ lit "title" := text "오늘의 개발 일지" ]>
               (<[ lit "content" := text "내용 생성 중 오류가 발생했습니다." ]>
                  {[ lit "error" := exn_text e ]})))).

End ContentGenerator.

(** A commit record with an entry of [files_changed] that is [None]. *)
Definition pathless_info : CommitInfo.t :=
  CommitInfo.mk (lit "2b3c4d5e") (lit "Glen") 259200000000 (lit "add analyzer")
    [Some (lit "a.py"); None] 1 0.

(** A model that answers every request, and the texts of one run. *)
Definition sample_chat (kind : chat_kind) (prompt : str) : result str :=
  Ok (lit "Weekly notes").

Definition sample_strftime (date : Z) : str := lit "1970-01-04 09:00:00".

Definition sample_exn_text (e : exn) : str :=
  lit "sequence item 1: expected str instance, NoneType found".

(** ** [create_summary_file] and its caller [generate_multiple_posts] *)

(** An element of the list handed to [create_summary_file]: a dictionary
    of strings, or a plain string such as a file path. *)
Inductive post_value : Type :=
  | PostPath (path : str)
  | PostDict (d : gmap str str).

(** [post.get(key, fallback)]: a string has no [get]. *)
Definition post_get (post : post_value) (key fallback : str) : result str :=
  match post with
  | PostPath _ => Raised AttributeError
  | PostDict d => Ok (default fallback (d !! key))
  end.

(** The records [create_summary_file] writes to the logger of the
    formatter, and what it does to the file system. *)
Inductive formatter_log_record : Type :=
  | InfoSummaryCreated (filepath : str)
  | ErrorSummary (e : exn).

Inductive fs_event : Type :=
  | Truncated (filepath : str)
  | Written (filepath content : str).

Record formatter_world : Type := mkWorld {
  formatter_log : list formatter_log_record;
  fs_events : list fs_event;
}.

(** [os.path.join(a, b)] on a POSIX system. *)
Definition path_join (a b : str) : str :=
  if startswith b (lit "/") then b
  else if negb (nonempty a) || startswith (rev a) (lit "/") then a ++ b
  else a ++ lit "/" ++ b.

(** Lines 245-254 of [post_formatter.py]: the loop over
    [enumerate(posts, i)]. *)
Fixpoint summary_loop (i : Z) (posts : list post_value) (summary_content : str)
  : result str :=
  match posts with
  | [] => Ok summary_content
  | post :: posts' =>
      rbind (post_get post (lit "title") (text "포스트 " ++ str_of_int i))
        (fun title =>
      rbind (post_get post (lit "filename")
               (lit "post_" ++ str_of_int i ++ lit ".md"))
        (fun filename =>
      rbind (post_get post (lit "generated_at") [])
        (fun generated_at =>
      let summary_content :=
        summary_content ++ lit "## " ++ str_of_int i ++ lit ". " ++ title
        ++ [10] in
      let summary_content :=
        summary_content ++ text "- 파일: `" ++ filename ++ lit "`" ++ [10] in
      let summary_content :=
        if nonempty generated_at
        then summary_content ++ text "- 생성시간: " ++ generated_at ++ [10]
        else summary_content in
      let summary_content := summary_content ++ [10] in
      summary_loop (i + 1) posts' summary_content)))
  end.

Section MultiplePosts.

(** The output directory of the formatter; the text of
    [datetime.now().strftime('%Y-%m-%d %H:%M:%S')]; and the file system:
    whether opening a path for writing, and writing to it, succeed. *)
Variable output_dir : str.
Variable now_text : str.
Variable open_for_writing : str -> result unit.
Variable write_to : str -> str -> result unit.

Definition create_summary_file (posts : list post_value) (w : formatter_world)
  : result str * formatter_world :=
  let header :=
    text "# 블로그 포스트 목록" ++ [10; 10]
    ++ text "생성일: " ++ now_text ++ [10; 10] in
  match summary_loop 1 posts header with
  | Raised e =>
      (Raised e, mkWorld (formatter_log w ++ [ErrorSummary e]) (fs_events w))
  | Ok summary_content =>
      let summary_filepath := path_join output_dir (lit "posts_summary.md") in
      match open_for_writing summary_filepath with
      | Raised e =>
          (Raised e, mkWorld (formatter_log w ++ [ErrorSummary e]) (fs_events w))
      | Ok _ =>
          let events := fs_events w ++ [Truncated summary_filepath] in
          match write_to summary_filepath summary_content with
          | Raised e =>
              (Raised e, mkWorld (formatter_log w ++ [ErrorSummary e]) events)
          | Ok _ =>
              (Ok summary_filepath,
               mkWorld (formatter_log w ++ [InfoSummaryCreated summary_filepath])
                 (events ++ [Written summary_filepath summary_content]))
          end
      end
  end.

Variable repo : Repo.
Variable clock : Clock.
Variable generate_blog_content :
  list CommitInfo.t -> list FileChange.t -> result (gmap str str).
Variable format_blog_post : gmap str str -> result str.
Variable generate_filename_from_title : str -> result str.
Variable save_blog_post : str -> str -> result str.

(** Lines 142-146 of [main.py]: the loop over [days_list]. *)
Fixpoint posts_loop (include_file_changes : bool) (days_list : list Z)
    (generated_posts : list str) : MM (list str) :=
  match days_list with
  | [] => mret generated_posts
  | days :: days_list' =>
      main_logger (InfoPeriodStart days) ;;;;
      filepath <~~ generate_blog_post repo clock generate_blog_content
                     format_blog_post generate_filename_from_title
                     save_blog_post days include_file_changes ;;
      posts_loop include_file_changes days_list'
        (match filepath with
         | Some path => if nonempty path then generated_posts ++ [path]
                        else generated_posts
         | None => generated_posts
         end)
  end.

Definition generate_multiple_posts (days_list : list Z)
    (include_file_changes : bool) (s : logs) (w : formatter_world)
  : result (list str) * logs * formatter_world :=
  match posts_loop include_file_changes days_list [] s with
  | (Raised e, s') => (Raised e, s', w)
  | (Ok generated_posts, s') =>
      match generated_posts with
      | [] => (Ok generated_posts, s', w)
      | _ :: _ =>
          match create_summary_file (List.map PostPath generated_posts) w with
          | (Raised e, w') => (Raised e, s', w')
          | (Ok _, w') => (Ok generated_posts, s', w')
          end
      end
  end.

End MultiplePosts.

(** A file system on which every operation succeeds. *)
Definition sample_open (filepath : str) : result unit := Ok tt.
Definition sample_write (filepath content : str) : result unit := Ok tt.
(** ** Lemmas on the loops and the decoder *)

Ltac run := unfold bind, ret, raise, lift, try_except, logger; simpl.

Lemma add_stats_run (additions deletions : Z) (change : Diff) (l : log) :
  add_stats additions deletions change l
  = (Ok (additions + entry_insertions change,
         deletions + entry_deletions change), l).
Proof.
  unfold add_stats, except_AttributeError, getattr_stats,
    entry_insertions, entry_deletions.
  destruct (stats change); run; [reflexivity|].
  now rewrite !Z.add_0_r.
Qed.

Lemma for_each_diff_body (entries : list Diff) :
  forall (files : list (option str)) (additions deletions : Z) (l : log),
    for_each diff_body entries (files, additions, deletions) l
    = (Ok (files ++ List.map entry_path entries,
           additions + Zsum (List.map entry_insertions entries),
           deletions + Zsum (List.map entry_deletions entries)), l).
Proof.
  induction entries as [|d entries IH]; intros files additions deletions l.
  - simpl. unfold ret. now rewrite app_nil_r, !Z.add_0_r.
  - simpl for_each. unfold bind at 1. unfold diff_body.
    unfold bind at 1. rewrite add_stats_run. unfold ret at 1. simpl fst. simpl snd.
    rewrite IH. simpl. rewrite <- app_assoc. simpl.
    now rewrite !Z.add_assoc.
Qed.

Lemma py_sum_run (values : list stat_value) :
  forall (acc : Z) (l : log),
    py_sum acc values l
    = (if forallb is_number values
       then Ok (acc + Zsum (List.map reported_lines values))
       else Raised TypeError, l).
Proof.
  induction values as [|[n|d] values IH]; intros acc l; simpl.
  - unfold ret. now rewrite Z.add_0_r.
  - rewrite IH. destruct (forallb is_number values); [|reflexivity].
    now rewrite Z.add_assoc.
  - reflexivity.
Qed.

Lemma root_stats_run (repo : Repo) (c : Commit)
    (files : list (str * stat_value)) (l : log) :
  commit_stats_files repo c = Ok files ->
  root_stats repo c l
  = (Ok (List.map (fun kv => Some (fst kv)) files,
         if forallb is_number (List.map snd files)
         then Zsum (List.map reported_lines (List.map snd files))
         else 0, 0), l).
Proof.
  intros Hfiles. unfold root_stats, except_TypeError. run.
  rewrite Hfiles. rewrite py_sum_run.
  destruct (forallb is_number (List.map snd files)); reflexivity.
Qed.

(** Deriving a record writes nothing to the log. *)
Lemma extract_commit_info_log (repo : Repo) (clock : Clock) (c : Commit) (l : log) :
  _extract_commit_info repo clock c l = (commit_info_of repo clock c, l).
Proof.
  unfold commit_info_of, _extract_commit_info.
  destruct (parents c) as [|parent ps].
  - unfold bind.
    destruct (commit_stats_files repo c) as [files|e] eqn:Hfiles.
    + rewrite !(root_stats_run repo c files) by assumption. reflexivity.
    + unfold root_stats. run. rewrite Hfiles. reflexivity.
  - run. destruct (commit_diff repo c parent) as [entries|e]; [|reflexivity].
    rewrite !for_each_diff_body. reflexivity.
Qed.


(** The scan writes nothing to the log either. *)
Lemma scan_log (repo : Repo) (clock : Clock) (start_date : Z) (it : commit_iter) :
  forall (commits : list CommitInfo.t) (l : log),
    scan repo clock start_date it commits l
    = (fst (scan repo clock start_date it commits []), l).
Proof.
  induction it as [|c rest IH|e]; intros commits l; simpl; try reflexivity.
  destruct (_ <? _); [reflexivity|].
  unfold bind. rewrite !extract_commit_info_log.
  destruct (commit_info_of repo clock c); [|reflexivity].
  rewrite IH. symmetry. rewrite IH. reflexivity.
Qed.


(** A run of in-window commits whose records derive is consumed whole. *)
Lemma scan_prefix (repo : Repo) (clock : Clock) (start_date : Z)
    (rest : commit_iter) (cs : list Commit) :
  forall (infos commits : list CommitInfo.t) (l : log),
    Forall (in_window clock start_date) cs ->
    Forall2 (fun c info => commit_info_of repo clock c = Ok info) cs infos ->
    scan repo clock start_date (iter_of cs rest) commits l
    = scan repo clock start_date rest (commits ++ infos) l.
Proof.
  induction cs as [|c cs IH]; intros infos commits l Hwin Hinfos.
  - inversion Hinfos; subst. simpl. now rewrite app_nil_r.
  - inversion Hinfos as [|? info ? infos' Hc Hcs]; subst.
    inversion Hwin as [|? ? Hcw Hcsw]; subst. simpl.
    unfold in_window in Hcw.
    destruct (Z.ltb_spec (fromtimestamp clock (committed_date c)) start_date);
      [lia|].
    unfold bind. rewrite extract_commit_info_log, Hc.
    rewrite (IH infos') by assumption.
    now rewrite <- app_assoc.
Qed.

Lemma window_start_cutoff (clock : Clock) (days start_date : Z) :
  window_start clock days = Ok start_date -> start_date = cutoff clock days.
Proof.
  unfold window_start, timedelta, datetime_sub, cutoff.
  destruct (_ && _); simpl; [|discriminate].
  destruct (_ && _); intros H; now inversion H.
Qed.

Lemma get_recent_commits_run (repo : Repo) (clock : Clock) (days : Z) (l : log) :
  get_recent_commits repo clock days l
  = match window_start clock days with
    | Raised e => (Ok [], l ++ [ErrorCommitQuery e])
    | Ok start_date =>
        match fst (scan repo clock start_date
                     (iter_commits repo (lit "main")) [] []) with
        | Ok rs => (Ok rs, l ++ [InfoRecentCommits days (length rs)])
        | Raised e => (Ok [], l ++ [ErrorCommitQuery e])
        end
    end.
Proof.
  unfold get_recent_commits, try_except, bind, lift.
  destruct (window_start clock days) as [start_date|e]; [|reflexivity].
  rewrite scan_log. destruct (fst _); reflexivity.
Qed.

(** The three error handlers on the pieces of an input. *)
Lemma assemble_ignore (ps : list piece) :
  assemble Ignore ps = Ok (decoded_text ps).
Proof.
  induction ps as [|[cp|range] ps IH]; simpl; [reflexivity| |];
    rewrite IH; reflexivity.
Qed.





Lemma extract_file_change_path (d : Diff) (bs : bytes) (l : log) :
  truthy (entry_path d) = true ->
  diff d = DiffBytes bs ->
  _extract_file_change d l
  = (Ok (Some (FileChange.mk (entry_path d) (change_code d)
                 (entry_insertions d) (entry_deletions d)
                 (decoded_text (utf8_pieces Start bs)))), l).
Proof.
  intros Hpath Hbody. unfold _extract_file_change, try_except, bind, lift.
  fold (entry_path d). rewrite Hpath, Hbody. simpl negb. cbv iota.
  unfold decode_body, decode_utf8. rewrite assemble_ignore.
  unfold except_AttributeError, getattr_stats, try_except, bind,
    entry_insertions, entry_deletions, change_code.
  destruct (stats d); reflexivity.
Qed.

Lemma extract_file_change_no_path (d : Diff) (l : log) :
  truthy (entry_path d) = false ->
  _extract_file_change d l = (Ok None, l).
Proof.
  intros Hpath. unfold _extract_file_change, try_except.
  fold (entry_path d). rewrite Hpath. reflexivity.
Qed.

(** The decode of line 194 raises on a [diff] that is not [bytes]; the
    handler of lines 212-214 logs it and gives the entry up. *)
Lemma extract_file_change_no_decode (d : Diff) (l : log) :
  truthy (entry_path d) = true ->
  (forall bs, diff d <> DiffBytes bs) ->
  _extract_file_change d l
  = (Ok None, l ++ [ErrorExtractFileChange AttributeError]).
Proof.
  intros Hpath Hbody. unfold _extract_file_change, try_except, bind, lift.
  fold (entry_path d). rewrite Hpath. simpl negb. cbv iota.
  destruct (diff d) as [bs| |]; [now destruct (Hbody bs)| |]; reflexivity.
Qed.

Lemma extract_file_change_log (d : Diff) (l : log) :
  _extract_file_change d l = (Ok (file_change_of d), l ++ extract_errors d).
Proof.
  unfold file_change_of, extract_errors.
  destruct (truthy (entry_path d)) eqn:Hpath.
  - destruct (diff d) as [bs| |] eqn:Hbody.
    + rewrite !(extract_file_change_path d bs) by assumption.
      simpl. now rewrite app_nil_r.
    + rewrite !extract_file_change_no_decode by (assumption || congruence).
      reflexivity.
    + rewrite !extract_file_change_no_decode by (assumption || congruence).
      reflexivity.
  - rewrite !extract_file_change_no_path by assumption.
    simpl. now rewrite app_nil_r.
Qed.

Lemma for_each_change_body (entries : list Diff) :
  forall (changes : list FileChange.t) (l : log),
    for_each change_body entries changes l
    = (Ok (changes ++ omap file_change_of entries),
       l ++ flat_map extract_errors entries).
Proof.
  induction entries as [|d entries IH]; intros changes l; simpl.
  - unfold ret. now rewrite !app_nil_r.
  - unfold bind at 1. unfold change_body at 1. unfold bind at 1.
    rewrite extract_file_change_log.
    destruct (file_change_of d) as [fc|]; unfold ret at 1; rewrite IH.
    + now rewrite <- !app_assoc.
    + now rewrite <- app_assoc.
Qed.

Lemma get_file_changes_run (repo : Repo) (commit_hash : str) (c parent : Commit)
    (ps : list Commit) (entries : list Diff) (l : log) :
  commit repo commit_hash = Ok c ->
  parents c = parent :: ps ->
  commit_diff repo c parent = Ok entries ->
  get_file_changes repo commit_hash l
  = (Ok (omap file_change_of entries), l ++ flat_map extract_errors entries).
Proof.
  intros Hc Hps Hdiff. unfold get_file_changes, try_except, bind, lift.
  rewrite Hc, Hps, Hdiff, for_each_change_body. reflexivity.
Qed.

(** The record and the log of an entry, case by case. *)
Lemma file_change_of_eq (d : Diff) :
  file_change_of d
  = match diff d with
    | DiffBytes bs =>
        if truthy (entry_path d)
        then Some (FileChange.mk (entry_path d) (change_code d)
                     (entry_insertions d) (entry_deletions d)
                     (decoded_text (utf8_pieces Start bs)))
        else None
    | DiffStr _ | DiffNone => None
    end.
Proof.
  unfold file_change_of. destruct (truthy (entry_path d)) eqn:Hpath.
  - destruct (diff d) as [bs| |] eqn:Hbody.
    + now rewrite (extract_file_change_path d bs).
    + rewrite extract_file_change_no_decode; [reflexivity|assumption|congruence].
    + rewrite extract_file_change_no_decode; [reflexivity|assumption|congruence].
  - rewrite extract_file_change_no_path by assumption.
    now destruct (diff d).
Qed.

Lemma extract_errors_eq (d : Diff) :
  extract_errors d
  = match diff d with
    | DiffBytes _ => []
    | DiffStr _ | DiffNone =>
        if truthy (entry_path d)
        then [ErrorExtractFileChange AttributeError] else []
    end.
Proof.
  unfold extract_errors. destruct (truthy (entry_path d)) eqn:Hpath.
  - destruct (diff d) as [bs| |] eqn:Hbody.
    + now rewrite (extract_file_change_path d bs).
    + rewrite extract_file_change_no_decode; [reflexivity|assumption|congruence].
    + rewrite extract_file_change_no_decode; [reflexivity|assumption|congruence].
  - rewrite extract_file_change_no_path by assumption.
    now destruct (diff d).
Qed.

(** ** [get_file_changes] *)

(** C1, as the source has it: when the identifier does not resolve,
    [get_file_changes] catches the exception of the lookup, logs one error
    record carrying it, and returns the empty list as an ordinary result. *)
Theorem get_file_changes_unknown_id (repo : Repo) (commit_hash : str)
    (e : exn) (l : log) :
  commit repo commit_hash = Raised e ->
  get_file_changes repo commit_hash l = (Ok [], l ++ [ErrorFileChanges e]).
Proof.
  intros Hlookup. unfold get_file_changes, try_except, bind, lift.
  rewrite Hlookup. reflexivity.
Qed.

Lemma get_file_changes_unknown_id_witness :
  commit sample_repo (lit "deadbeef") = Raised BadName /\
  get_file_changes sample_repo (lit "deadbeef") []
  = (Ok [], [] ++ [ErrorFileChanges BadName]).
Proof.
  split; [reflexivity|].
  apply (get_file_changes_unknown_id sample_repo (lit "deadbeef") BadName []).
  reflexivity.
Defined.

(** C1, as stated, does not hold: for the identifier [deadbeef], which
    the sample repository does not resolve, the call raises nothing and
    returns the empty list. *)
Lemma get_file_changes_unknown_id_no_failure :
  commit sample_repo (lit "deadbeef") = Raised BadName /\
  fst (get_file_changes sample_repo (lit "deadbeef") []) = Ok [] /\
  ~ (exists e, fst (get_file_changes sample_repo (lit "deadbeef") []) = Raised e).
Proof.
  split; [reflexivity|]. split; [reflexivity|].
  intros [e He]. vm_compute in He. discriminate He.
Qed.

(** C9: for an identifier that resolves to a commit without parents,
    [get_file_changes] returns the empty list and logs nothing. *)
Theorem get_file_changes_root (repo : Repo) (commit_hash : str) (c : Commit)
    (l : log) :
  commit repo commit_hash = Ok c ->
  parents c = [] ->
  get_file_changes repo commit_hash l = (Ok [], l).
Proof.
  intros Hlookup Hroot. unfold get_file_changes, try_except, bind, lift.
  rewrite Hlookup, Hroot. reflexivity.
Qed.

Lemma get_file_changes_root_witness :
  get_file_changes sample_repo (hexsha root_commit) [] = (Ok [], []).
Proof.
  apply (get_file_changes_root sample_repo (hexsha root_commit) root_commit []);
    reflexivity.
Defined.


(** C2: the module diffs a commit against its first parent, so the [a]
    side of an entry is the side after the change and the [b] side the one
    before it.  Every record [_extract_file_change] gives carries the
    post-change path whenever the entry has one, whether or not the
    pre-change path differs from it as in a rename; it carries the
    pre-change path when the entry has no post-change path, and such an
    entry then has a pre-change path. *)
Theorem file_path_prefers_post_change (d : Diff) (l l' : log)
    (fc : FileChange.t) :
  _extract_file_change d l = (Ok (Some fc), l') ->
  (truthy (a_path d) = true -> truthy (b_path d) = true ->
   a_path d <> b_path d -> FileChange.file_path fc = a_path d)
  /\ (truthy (a_path d) = true -> truthy (b_path d) = false ->
      FileChange.file_path fc = a_path d)
  /\ (truthy (a_path d) = false ->
      truthy (b_path d) = true /\ FileChange.file_path fc = b_path d).
Proof.
  rewrite extract_file_change_log, file_change_of_eq.
  destruct (diff d) as [bs| |]; try discriminate.
  destruct (truthy (entry_path d)) eqn:Hpath; [|discriminate].
  intros H. inversion H; subst; simpl. clear H.
  unfold entry_path, py_or in *.
  destruct (truthy (a_path d)); repeat split; intros; try discriminate;
    try reflexivity; assumption.
Qed.

Lemma file_path_prefers_post_change_witness :
  (exists fc, _extract_file_change renamed_entry [] = (Ok (Some fc), [])
              /\ a_path renamed_entry = Some (lit "new.py")
              /\ b_path renamed_entry = Some (lit "old.py")
              /\ FileChange.file_path fc = Some (lit "new.py"))
  /\ (exists fc, _extract_file_change added_entry [] = (Ok (Some fc), [])
                 /\ a_path added_entry = None
                 /\ FileChange.file_path fc = Some (lit "docs/new.md")).
Proof.
  split.
  - eexists. split; [reflexivity|]. split; [reflexivity|]. split; [reflexivity|].
    apply (proj1 (file_path_prefers_post_change renamed_entry [] [] _ eq_refl));
      [reflexivity|reflexivity|vm_compute; discriminate].
  - eexists. split; [reflexivity|]. split; [reflexivity|].
    apply (proj2 (proj2 (file_path_prefers_post_change added_entry [] [] _
                           eq_refl))).
    reflexivity.
Defined.

(** C7 fails on the code: [commit.diff(commit.parents[0])] hands the loop
    entries whose [diff] is the string [''], on which the decode of line
    194 raises.  For every commit with a parent whose diff entries have a
    path and a string as [diff], [get_file_changes] returns no record at
    all and logs one error for each entry. *)
Theorem get_file_changes_raw_diff (repo : Repo) (commit_hash : str)
    (c parent : Commit) (ps : list Commit) (entries : list Diff) (l : log) :
  commit repo commit_hash = Ok c ->
  parents c = parent :: ps ->
  commit_diff repo c parent = Ok entries ->
  Forall (fun d => truthy (py_or (a_path d) (b_path d)) = true
                   /\ exists s, diff d = DiffStr s) entries ->
  get_file_changes repo commit_hash l
  = (Ok [],
     l ++ List.map (fun _ => ErrorExtractFileChange AttributeError) entries).
Proof.
  intros Hc Hps Hdiff Hraw.
  rewrite (get_file_changes_run repo commit_hash c parent ps entries l)
    by assumption.
  assert (Hall : omap file_change_of entries = []
                 /\ flat_map extract_errors entries
                    = List.map (fun _ => ErrorExtractFileChange AttributeError)
                        entries).
  { clear Hdiff. induction entries as [|d entries IH];
      [split; reflexivity|].
    inversion Hraw as [|? ? [Hpath [s Hs]] Hrest]; subst.
    destruct (IH Hrest) as [IHr IHe].
    simpl. rewrite file_change_of_eq, extract_errors_eq, Hs.
    fold (entry_path d) in Hpath. rewrite Hpath. simpl. rewrite IHe.
    split; [exact IHr|reflexivity]. }
  destruct Hall as [-> ->]. reflexivity.
Qed.

Lemma get_file_changes_raw_diff_witness :
  get_file_changes raw_repo (hexsha head_commit) []
  = (Ok [],
     [] ++ List.map (fun _ => ErrorExtractFileChange AttributeError)
             [raw_added; raw_deleted; raw_modified]).
Proof.
  apply (get_file_changes_raw_diff raw_repo (hexsha head_commit) head_commit
           boundary_commit [] [raw_added; raw_deleted; raw_modified] []);
    try reflexivity.
  repeat constructor; eexists; reflexivity.
Defined.




(** ** [get_recent_commits] *)

(** C4: for a commit with a parent whose diff against the first parent has
    the entries [entries], the record derives without failure, lists one
    path per entry, and its [additions] and [deletions] are the sums of the
    entries' [insertions] and [deletions] counters, an entry without [stats]
    counting for 0 in both. *)
Theorem parent_diff_record (repo : Repo) (clock : Clock) (c parent : Commit)
    (ps : list Commit) (entries : list Diff) (l : log) :
  parents c = parent :: ps ->
  commit_diff repo c parent = Ok entries ->
  (exists info,
     _extract_commit_info repo clock c l = (Ok info, l)
     /\ CommitInfo.files_changed info
        = List.map (fun d => py_or (a_path d) (b_path d)) entries
     /\ length (CommitInfo.files_changed info) = length entries
     /\ CommitInfo.additions info = Zsum (List.map entry_insertions entries)
     /\ CommitInfo.deletions info = Zsum (List.map entry_deletions entries))
  /\ (forall d, stats d = None -> entry_insertions d = 0 /\ entry_deletions d = 0)
  /\ (forall d st, stats d = Some st ->
        entry_insertions d = default 0 (st !! lit "insertions")
        /\ entry_deletions d = default 0 (st !! lit "deletions")).
Proof.
  intros Hps Hdiff. split; [|split].
  - unfold _extract_commit_info. rewrite Hps. unfold bind, lift.
    rewrite Hdiff, for_each_diff_body. simpl.
    eexists. split; [reflexivity|]. simpl.
    split; [reflexivity|]. split; [now rewrite length_map|].
    split; reflexivity.
  - intros d Hd. unfold entry_insertions, entry_deletions. now rewrite Hd.
  - intros d st Hd. unfold entry_insertions, entry_deletions. now rewrite Hd.
Qed.

Lemma parent_diff_record_witness :
  exists info,
    _extract_commit_info sample_repo sample_clock head_commit [] = (Ok info, [])
    /\ CommitInfo.files_changed info
       = [Some (lit "docs/new.md"); Some (lit "old.txt"); Some (lit "src/a.py")]
    /\ length (CommitInfo.files_changed info) = 3%nat
    /\ CommitInfo.additions info = 1
    /\ CommitInfo.deletions info = 4.
Proof.
  apply (proj1 (parent_diff_record sample_repo sample_clock head_commit
                  boundary_commit []
                  [added_entry; deleted_entry; modified_entry] []
                  eq_refl eq_refl)).
Defined.

(** C3, as the source has it: for a commit without parents whose
    [stats.files] is [files], the record lists the keys of [files] in their
    order and has 0 deletions; its [additions] is the sum of the values of
    [files] when all of them are numbers, and 0 when one of them is a
    per-file dictionary, the [TypeError] of the sum being caught. *)
Theorem root_commit_record (repo : Repo) (clock : Clock) (c : Commit)
    (files : list (str * stat_value)) (l : log) :
  parents c = [] ->
  commit_stats_files repo c = Ok files ->
  exists info,
    _extract_commit_info repo clock c l = (Ok info, l)
    /\ CommitInfo.files_changed info = List.map (fun kv => Some (fst kv)) files
    /\ CommitInfo.deletions info = 0
    /\ CommitInfo.additions info
       = if forallb is_number (List.map snd files)
         then Zsum (List.map reported_lines (List.map snd files))
         else 0.
Proof.
  intros Hroot Hfiles. unfold _extract_commit_info. rewrite Hroot.
  unfold bind at 1. rewrite (root_stats_run repo c files l Hfiles).
  eexists. split; [reflexivity|]. simpl. repeat split; reflexivity.
Qed.

Lemma root_commit_record_witness :
  exists info,
    _extract_commit_info sample_repo sample_clock root_commit [] = (Ok info, [])
    /\ CommitInfo.files_changed info = [Some (lit "a.txt"); Some (lit "b.txt")]
    /\ CommitInfo.deletions info = 0
    /\ CommitInfo.additions info = 0.
Proof.
  apply (root_commit_record sample_repo sample_clock root_commit
           sample_stats_files [] eq_refl eq_refl).
Defined.

(** C3, as stated, does not hold: for the root commit of the sample
    repository the library reports 2 lines for [a.txt] and 3 for [b.txt],
    and the record has 0 additions, not 5. *)
Lemma root_commit_additions_zero :
  parents root_commit = [] /\
  commit_stats_files sample_repo root_commit = Ok sample_stats_files /\
  Zsum (List.map reported_lines (List.map snd sample_stats_files)) = 5 /\
  exists info,
    _extract_commit_info sample_repo sample_clock root_commit [] = (Ok info, [])
    /\ CommitInfo.additions info = 0
    /\ CommitInfo.additions info
       <> Zsum (List.map reported_lines (List.map snd sample_stats_files)).
Proof.
  split; [reflexivity|]. split; [reflexivity|]. split; [reflexivity|].
  eexists. split; [reflexivity|]. split; [reflexivity|].
  vm_compute. discriminate.
Qed.





(** C8: when iterating the commits of [main] raises before any commit is
    yielded, [get_recent_commits] returns the empty list as an ordinary
    result and writes one error record to the log.  The record carries
    the exception of the iteration; only when [now - days] days is no
    [datetime] does the call fail earlier, at lines 76-77, and log that
    failure instead. *)
Theorem get_recent_commits_unreadable (repo : Repo) (clock : Clock) (days : Z)
    (e : exn) (l : log) :
  iter_commits repo (lit "main") = IterRaise e ->
  (exists e',
      get_recent_commits repo clock days l = (Ok [], l ++ [ErrorCommitQuery e'])
      /\ is_error (ErrorCommitQuery e') = true)
  /\ (forall start_date,
        window_start clock days = Ok start_date ->
        get_recent_commits repo clock days l
        = (Ok [], l ++ [ErrorCommitQuery e]))
  /\ is_error (ErrorCommitQuery e) = true.
Proof.
  intros Hiter. rewrite get_recent_commits_run, Hiter.
  destruct (window_start clock days) as [start_date|e0]; simpl.
  - split; [exists e; now split|]. split; [reflexivity|reflexivity].
  - split; [exists e0; now split|]. split; [discriminate|reflexivity].
Qed.

Lemma get_recent_commits_unreadable_witness :
  window_start sample_clock 7 = Ok 259200000000
  /\ get_recent_commits unborn_repo sample_clock 7 []
     = (Ok [], [] ++ [ErrorCommitQuery GitCommandError])
  /\ is_error (ErrorCommitQuery GitCommandError) = true.
Proof.
  split; [reflexivity|]. split.
  - apply (proj1 (proj2 (get_recent_commits_unreadable unborn_repo
                           sample_clock 7 GitCommandError [] eq_refl))
             259200000000).
    reflexivity.
  - apply (proj2 (proj2 (get_recent_commits_unreadable unborn_repo
                           sample_clock 7 GitCommandError [] eq_refl))).
Defined.

(** C10: when the history on [main] starts with in-window commits [pre]
    whose records derive, followed by an in-window commit [c] whose record
    raises, [get_recent_commits] returns the empty list: the records of
    [pre] are dropped, and one error record is logged, which carries the
    exception of [c] whenever [now - days] days is a [datetime]. *)
Theorem get_recent_commits_all_or_nothing (repo : Repo) (clock : Clock)
    (days : Z) (pre : list Commit) (c : Commit) (rest : commit_iter)
    (infos : list CommitInfo.t) (e : exn) (l : log) :
  iter_commits repo (lit "main") = iter_of pre (Yield c rest) ->
  Forall (in_window clock (cutoff clock days)) (pre ++ [c]) ->
  Forall2 (fun x i => commit_info_of repo clock x = Ok i) pre infos ->
  commit_info_of repo clock c = Raised e ->
  (exists e',
      get_recent_commits repo clock days l
      = (Ok [], l ++ [ErrorCommitQuery e']))
  /\ (forall start_date,
        window_start clock days = Ok start_date ->
        get_recent_commits repo clock days l
        = (Ok [], l ++ [ErrorCommitQuery e])).
Proof.
  intros Hiter Hwin Hinfos Hraise.
  apply Forall_app in Hwin as [Hpre Hc].
  inversion Hc as [|? ? Hcw _]; subst. unfold in_window in Hcw.
  assert (Hrun : forall start_date,
             window_start clock days = Ok start_date ->
             get_recent_commits repo clock days l
             = (Ok [], l ++ [ErrorCommitQuery e])).
  { intros start_date Hstart. rewrite get_recent_commits_run, Hstart, Hiter.
    apply window_start_cutoff in Hstart. subst start_date.
    rewrite (scan_prefix _ _ _ _ pre infos) by assumption.
    simpl.
    destruct (Z.ltb_spec (fromtimestamp clock (committed_date c))
                (cutoff clock days)); [lia|].
    unfold bind. rewrite extract_commit_info_log, Hraise. reflexivity. }
  split; [|exact Hrun].
  destruct (window_start clock days) as [start_date|e0] eqn:Hstart.
  - exists e. now apply (Hrun start_date).
  - exists e0. now rewrite get_recent_commits_run, Hstart.
Qed.

Lemma get_recent_commits_all_or_nothing_witness :
  (exists head_info, commit_info_of flaky_repo sample_clock head_commit = Ok head_info)
  /\ commit_info_of flaky_repo sample_clock boundary_commit = Raised GitCommandError
  /\ window_start sample_clock 7 = Ok 259200000000
  /\ get_recent_commits flaky_repo sample_clock 7 []
     = (Ok [], [] ++ [ErrorCommitQuery GitCommandError]).
Proof.
  split; [eexists; reflexivity|]. split; [reflexivity|].
  split; [reflexivity|].
  assert (Hwin : Forall (in_window sample_clock (cutoff sample_clock 7))
                   ([head_commit] ++ [boundary_commit])).
  { repeat constructor; unfold in_window; vm_compute; discriminate. }
  assert (Hinfos : exists infos,
             Forall2 (fun x i => commit_info_of flaky_repo sample_clock x = Ok i)
               [head_commit] infos).
  { eexists. repeat constructor. }
  destruct Hinfos as [infos Hinfos].
  apply (proj2 (get_recent_commits_all_or_nothing flaky_repo sample_clock 7
                  [head_commit] boundary_commit
                  (Yield root_commit StopIteration) infos GitCommandError []
                  eq_refl Hwin Hinfos eq_refl) 259200000000).
  reflexivity.
Defined.

(** ** Further properties of [get_recent_commits] *)

Lemma scan_extends (repo : Repo) (clock : Clock) (start_date : Z)
    (it : commit_iter) :
  forall (commits rs : list CommitInfo.t) (l l' : log),
    scan repo clock start_date it commits l = (Ok rs, l') ->
    exists n infos,
      rs = commits ++ infos
      /\ Forall2 (fun c i => commit_info_of repo clock c = Ok i)
           (take n (yielded it)) infos
      /\ Forall (in_window clock start_date) (take n (yielded it)).
Proof.
  induction it as [|c rest IH|e]; intros commits rs l l'; simpl.
  - unfold ret. intros H. inversion H; subst. exists 0%nat, [].
    rewrite app_nil_r. repeat split; constructor.
  - destruct (Z.ltb_spec (fromtimestamp clock (committed_date c)) start_date)
      as [Hlt|Hge].
    + unfold ret. intros H. inversion H; subst. exists 0%nat, [].
      rewrite app_nil_r. repeat split; constructor.
    + unfold bind. rewrite extract_commit_info_log.
      destruct (commit_info_of repo clock c) as [info|e] eqn:Hinfo; [|discriminate].
      intros H. apply IH in H as (n & infos & -> & Hinfos & Hwin).
      exists (S n), (info :: infos). rewrite <- app_assoc. simpl.
      repeat split; [now constructor|now constructor].
  - unfold raise. discriminate.
Qed.

(** X1: whatever [get_recent_commits] returns is, record for record and in
    the order of the traversal, derived from the first commits that [main]
    yields, all of them inside the window; nothing is reordered, repeated
    or left out in between. *)
Theorem get_recent_commits_prefix (repo : Repo) (clock : Clock) (days : Z)
    (l l' : log) (rs : list CommitInfo.t) :
  get_recent_commits repo clock days l = (Ok rs, l') ->
  exists n,
    Forall2 (fun c i => commit_info_of repo clock c = Ok i)
      (take n (yielded (iter_commits repo (lit "main")))) rs
    /\ Forall (in_window clock (cutoff clock days))
         (take n (yielded (iter_commits repo (lit "main")))).
Proof.
  rewrite get_recent_commits_run.
  destruct (window_start clock days) as [start_date|e0] eqn:Hstart.
  - apply window_start_cutoff in Hstart. subst start_date.
    destruct (scan repo clock (cutoff clock days)
                (iter_commits repo (lit "main")) [] [])
      as [[rs0|e] l0] eqn:Hscan; simpl; intros H; inversion H; subst.
    + apply scan_extends in Hscan as (n & infos & -> & Hinfos & Hwin).
      exists n. split; assumption.
    + exists 0%nat. split; constructor.
  - intros H. inversion H; subst. exists 0%nat. split; constructor.
Qed.

Lemma get_recent_commits_prefix_witness :
  exists n,
    Forall2 (fun c i => commit_info_of sample_repo sample_clock c = Ok i)
      (take n (yielded (iter_commits sample_repo (lit "main"))))
      (match fst (get_recent_commits sample_repo sample_clock 7 []) with
       | Ok rs => rs
       | Raised _ => []
       end)
    /\ Forall (in_window sample_clock (cutoff sample_clock 7))
         (take n (yielded (iter_commits sample_repo (lit "main")))).
Proof.
  eapply (get_recent_commits_prefix sample_repo sample_clock 7 []).
  reflexivity.
Defined.

(** X2: every call of [get_recent_commits], for any number of days, returns
    normally and appends exactly one record to the log: the info record
    with the number of commits returned, or an error record, in which case
    the list returned is empty. *)
Theorem get_recent_commits_log (repo : Repo) (clock : Clock) (days : Z)
    (l : log) :
  exists rs r,
    get_recent_commits repo clock days l = (Ok rs, l ++ [r])
    /\ (r = InfoRecentCommits days (length rs)
        \/ (exists e, r = ErrorCommitQuery e) /\ rs = []).
Proof.
  rewrite get_recent_commits_run.
  destruct (window_start clock days) as [start_date|e0].
  - destruct (fst _) as [rs|e].
    + exists rs, (InfoRecentCommits days (length rs)).
      split; [reflexivity|now left].
    + exists [], (ErrorCommitQuery e). split; [reflexivity|]. right.
      split; [now exists e|reflexivity].
  - exists [], (ErrorCommitQuery e0). split; [reflexivity|]. right.
    split; [now exists e0|reflexivity].
Qed.






Lemma scan_keeps (repo : Repo) (clock : Clock) (start_date : Z)
    (it : commit_iter) (commits rs : list CommitInfo.t) (l l' : log) :
  scan repo clock start_date it commits l = (Ok rs, l') ->
  exists more, rs = commits ++ more.
Proof.
  intros H. apply scan_extends in H as (n & infos & -> & _). now exists infos.
Qed.

Lemma scan_monotone (repo : Repo) (clock : Clock) (early late : Z)
    (it : commit_iter) :
  early <= late ->
  forall (commits wide : list CommitInfo.t) (l l' : log),
    scan repo clock early it commits l = (Ok wide, l') ->
    exists narrow more,
      scan repo clock late it commits l = (Ok narrow, l)
      /\ wide = narrow ++ more.
Proof.
  intros Hle. induction it as [|c rest IH|e]; intros commits wide l l'; simpl.
  - unfold ret. intros H. inversion H; subst. exists wide, [].
    now rewrite app_nil_r.
  - destruct (Z.ltb_spec (fromtimestamp clock (committed_date c)) early)
      as [Hlt|Hge].
    + unfold ret. intros H. inversion H; subst.
      destruct (Z.ltb_spec (fromtimestamp clock (committed_date c)) late); [|lia].
      exists wide, []. now rewrite app_nil_r.
    + destruct (Z.ltb_spec (fromtimestamp clock (committed_date c)) late)
        as [Hlt'|Hge'].
      * unfold bind. rewrite extract_commit_info_log.
        destruct (commit_info_of repo clock c) as [info|e]; [|discriminate].
        intros H. apply scan_keeps in H as [more ->].
        exists commits, ([info] ++ more). split; [reflexivity|].
        now rewrite app_assoc.
      * unfold bind. rewrite !extract_commit_info_log.
        destruct (commit_info_of repo clock c) as [info|e]; [|discriminate].
        apply IH.
  - unfold raise. discriminate.
Qed.

(** X4: a shorter window returns a prefix of what a longer one returns.
    When [get_recent_commits d2] succeeds and the start of the shorter
    window, [now - d1] days with [d1 <= d2], is a [datetime],
    [get_recent_commits d1] succeeds too, and its list is an initial part
    of the other. *)
Theorem get_recent_commits_monotone (repo : Repo) (clock : Clock) (d1 d2 : Z)
    (start1 : Z) (l : log) (wide : list CommitInfo.t) :
  d1 <= d2 ->
  window_start clock d1 = Ok start1 ->
  get_recent_commits repo clock d2 l
  = (Ok wide, l ++ [InfoRecentCommits d2 (length wide)]) ->
  exists narrow more,
    get_recent_commits repo clock d1 l
    = (Ok narrow, l ++ [InfoRecentCommits d1 (length narrow)])
    /\ wide = narrow ++ more.
Proof.
  intros Hle Hstart1. rewrite !get_recent_commits_run, Hstart1.
  pose proof (window_start_cutoff _ _ _ Hstart1) as Hs1.
  destruct (window_start clock d2) as [start2|e2] eqn:Hstart2.
  2:{ intros H. inversion H as [[Hrs Hlog]]. subst.
      apply app_inv_head in Hlog. discriminate. }
  pose proof (window_start_cutoff _ _ _ Hstart2) as Hs2.
  destruct (scan repo clock start2
              (iter_commits repo (lit "main")) [] []) as [[rs|e] l0] eqn:Hscan;
    simpl.
  - intros H. inversion H; subst.
    apply (scan_monotone repo clock _ (cutoff clock d1)) in Hscan
      as (narrow & more & Hnarrow & ->); [|unfold cutoff; lia].
    rewrite Hnarrow. simpl. now exists narrow, more.
  - intros H. inversion H as [[Hrs Hlog]]. subst.
    apply app_inv_head in Hlog. discriminate.
Qed.

Lemma get_recent_commits_monotone_witness :
  exists narrow more,
    get_recent_commits sample_repo sample_clock 3 []
    = (Ok narrow, [] ++ [InfoRecentCommits 3 (length narrow)])
    /\ match fst (get_recent_commits sample_repo sample_clock 7 []) with
       | Ok rs => rs
       | Raised _ => []
       end = narrow ++ more.
Proof.
  eapply (get_recent_commits_monotone sample_repo sample_clock 3 7
            604800000000 []).
  - lia.
  - reflexivity.
  - reflexivity.
Defined.

(** ** The fields of a commit record *)

Lemma lstrip_spec (s : str) :
  exists pre, s = pre ++ lstrip s
              /\ Forall (fun c => is_space c = true) pre
              /\ (forall c t, lstrip s = c :: t -> is_space c = false).
Proof.
  induction s as [|c s (pre & Hs & Hpre & Hhead)]; simpl.
  - exists []. split; [reflexivity|]. split; [constructor|discriminate].
  - destruct (is_space c) eqn:Hc.
    + exists (c :: pre). split; [simpl; now f_equal|].
      split; [now constructor|exact Hhead].
    + exists []. split; [reflexivity|]. split; [constructor|].
      intros c' t H. now inversion H; subst.
Qed.

Lemma lstrip_id (s : str) :
  (forall c t, s = c :: t -> is_space c = false) -> lstrip s = s.
Proof.
  destruct s as [|c s]; [reflexivity|]. intros H. simpl.
  now rewrite (H c s eq_refl).
Qed.

Lemma strip_trimmed (s : str) : trimmed_of s (strip s) /\ tight (strip s).
Proof.
  unfold strip.
  destruct (lstrip_spec s) as (pre & Hs & Hpre & Hhead).
  destruct (lstrip_spec (rev (lstrip s))) as (suf & Hr & Hsuf & Hlast).
  assert (Hmid : lstrip s = rev (lstrip (rev (lstrip s))) ++ rev suf).
  { rewrite <- rev_app_distr, <- Hr. now rewrite rev_involutive. }
  split.
  - exists pre, (rev suf). split; [now rewrite <- Hmid|].
    split; [exact Hpre|]. now apply Forall_rev.
  - split.
    + intros c t Ht. apply (Hhead c (t ++ rev suf)).
      rewrite Hmid at 1. now rewrite Ht.
    + intros c t Ht. apply (Hlast c (rev t)).
      rewrite <- (rev_involutive (lstrip (rev (lstrip s)))), Ht.
      now rewrite rev_app_distr.
Qed.

Lemma strip_tight (t : str) : tight t -> strip t = t.
Proof.
  intros [Hhead Hlast]. unfold strip. rewrite (lstrip_id t Hhead).
  rewrite lstrip_id; [apply rev_involutive|].
  intros c t' Ht. apply (Hlast c (rev t')).
  rewrite <- (rev_involutive t), Ht. reflexivity.
Qed.

Lemma extract_commit_info_fields (repo : Repo) (clock : Clock) (c : Commit)
    (info : CommitInfo.t) :
  commit_info_of repo clock c = Ok info ->
  CommitInfo.hash info = take 8 (hexsha c)
  /\ CommitInfo.author info = author_name c
  /\ CommitInfo.message info = strip (message c).
Proof.
  unfold commit_info_of, _extract_commit_info. unfold bind at 1.
  match goal with
  | |- context [let (_, _) := ?m [] in _] =>
      destruct (m []) as [[[[files a] d]|e] l']
  end; simpl; intros H; inversion H; repeat split; reflexivity.
Qed.

(** X5: the record of a commit carries, as [hash], the first eight
    characters of [hexsha] (all of it when it is shorter), and as [message]
    the commit message with the white space at both ends removed and
    nothing else changed; the message of a record has no white space at
    either end, so stripping it again changes nothing. *)
Theorem commit_record_fields (repo : Repo) (clock : Clock) (c : Commit)
    (info : CommitInfo.t) :
  commit_info_of repo clock c = Ok info ->
  (exists rest, hexsha c = CommitInfo.hash info ++ rest)
  /\ length (CommitInfo.hash info) = Nat.min 8 (length (hexsha c))
  /\ CommitInfo.author info = author_name c
  /\ trimmed_of (message c) (CommitInfo.message info)
  /\ tight (CommitInfo.message info)
  /\ strip (CommitInfo.message info) = CommitInfo.message info.
Proof.
  intros H. apply extract_commit_info_fields in H as (Hhash & Hauthor & Hmsg).
  rewrite Hhash, Hauthor, Hmsg.
  destruct (strip_trimmed (message c)) as [Htrim Htight].
  split; [exists (drop 8 (hexsha c)); now rewrite take_drop|].
  split; [apply length_take|].
  split; [reflexivity|]. split; [exact Htrim|]. split; [exact Htight|].
  now apply strip_tight.
Qed.

Lemma commit_record_fields_witness :
  exists info,
    commit_info_of sample_repo sample_clock boundary_commit = Ok info
    /\ (exists rest, hexsha boundary_commit = CommitInfo.hash info ++ rest)
    /\ length (CommitInfo.hash info) = Nat.min 8 (length (hexsha boundary_commit))
    /\ CommitInfo.author info = author_name boundary_commit
    /\ trimmed_of (message boundary_commit) (CommitInfo.message info)
    /\ tight (CommitInfo.message info)
    /\ strip (CommitInfo.message info) = CommitInfo.message info.
Proof.
  eexists. split; [reflexivity|].
  apply (commit_record_fields sample_repo sample_clock boundary_commit).
  reflexivity.
Defined.

Lemma Zsum_nonneg (ns : list Z) : Forall (fun n => 0 <= n) ns -> 0 <= Zsum ns.
Proof. induction 1; simpl; lia. Qed.

Lemma dict_get_nonneg (st : gmap str Z) (key : str) :
  (forall k v, st !! k = Some v -> 0 <= v) -> 0 <= dict_get st key.
Proof.
  intros H. unfold dict_get. destruct (st !! key) as [v|] eqn:Hv; simpl;
    [now apply (H key)|lia].
Qed.

(** X6: the line counts of a record are never negative when the counters
    the library reports are not: for a commit with a parent whose diff
    entries carry no negative counter, [additions] and [deletions] of the
    record are at least 0. *)
Theorem commit_record_nonnegative (repo : Repo) (clock : Clock)
    (c parent : Commit) (ps : list Commit) (entries : list Diff)
    (info : CommitInfo.t) :
  parents c = parent :: ps ->
  commit_diff repo c parent = Ok entries ->
  Forall (fun d => forall st k v, stats d = Some st -> st !! k = Some v -> 0 <= v)
    entries ->
  commit_info_of repo clock c = Ok info ->
  0 <= CommitInfo.additions info /\ 0 <= CommitInfo.deletions info.
Proof.
  intros Hps Hdiff Hstats. unfold commit_info_of, _extract_commit_info.
  rewrite Hps. unfold bind, lift. rewrite Hdiff, for_each_diff_body. simpl.
  intros H. inversion H; subst; simpl. clear H.
  split; apply Zsum_nonneg, Forall_map;
    (eapply Forall_impl; [exact Hstats|]); simpl; intros d Hd;
    unfold entry_insertions, entry_deletions;
    (destruct (stats d) as [st|] eqn:Hst; [|lia]);
    apply dict_get_nonneg; intros k v; now apply Hd.
Qed.

Lemma commit_record_nonnegative_witness :
  exists info,
    commit_info_of sample_repo sample_clock head_commit = Ok info
    /\ 0 <= CommitInfo.additions info /\ 0 <= CommitInfo.deletions info.
Proof.
  eexists. split; [reflexivity|].
  apply (commit_record_nonnegative sample_repo sample_clock head_commit
           boundary_commit [] [added_entry; deleted_entry; modified_entry]);
    try reflexivity.
  repeat constructor; intros st k v Hst Hv; inversion Hst; subst; clear Hst;
    revert Hv;
    repeat (rewrite lookup_insert; case_decide; [intros Hv; inversion Hv; lia|]);
    try (rewrite lookup_singleton; case_decide; [intros Hv; inversion Hv; lia|]);
    try (rewrite lookup_empty); discriminate.
Defined.

(** ** Further properties of [get_file_changes] *)

Lemma change_code_cases (d : Diff) :
  change_code d = lit "A" \/ change_code d = lit "D" \/ change_code d = lit "M".
Proof.
  unfold change_code. destruct (new_file d), (deleted_file d); auto.
Qed.

Lemma omap_file_change_well_formed (entries : list Diff) :
  Forall well_formed_change (omap file_change_of entries).
Proof.
  induction entries as [|d entries IH]; simpl; [constructor|].
  rewrite file_change_of_eq.
  destruct (diff d) as [bs| |]; [|exact IH|exact IH].
  destruct (truthy (entry_path d)) eqn:Hpath; [|exact IH].
  constructor; [|exact IH]. split; [exact Hpath|apply change_code_cases].
Qed.

Lemma omap_file_change_length (entries : list Diff) :
  length (omap file_change_of entries) = length (List.filter extracted entries).
Proof.
  induction entries as [|d entries IH]; simpl; [reflexivity|].
  rewrite file_change_of_eq. unfold extracted, has_patch.
  destruct (diff d) as [bs| |], (truthy (entry_path d)); simpl;
    try exact IH.
  f_equal. exact IH.
Qed.

Lemma extract_errors_given_up (entries : list Diff) :
  flat_map extract_errors entries
  = List.map (fun _ => ErrorExtractFileChange AttributeError)
      (List.filter given_up entries).
Proof.
  induction entries as [|d entries IH]; simpl; [reflexivity|].
  rewrite extract_errors_eq, IH. unfold given_up, has_patch.
  destruct (diff d) as [bs| |], (truthy (entry_path d)); reflexivity.
Qed.

(** X7: [get_file_changes] returns normally for every repository and
    identifier.  Either it logs one error record of its own and returns the
    empty list, or all it logs is one [AttributeError] record of
    [_extract_file_change] for each entry of the diff that has a path and
    whose [diff] is not a byte string (nothing, when there is no such
    entry).  Every record it returns has a path that is neither [None] nor
    empty and a change type among [A], [D] and [M]. *)
Theorem get_file_changes_well_formed (repo : Repo) (commit_hash : str) (l : log) :
  exists fcs l',
    get_file_changes repo commit_hash l = (Ok fcs, l')
    /\ ((exists e, l' = l ++ [ErrorFileChanges e]) /\ fcs = []
        \/ (exists n, l' = l ++ replicate n (ErrorExtractFileChange AttributeError))
           /\ (forall c parent ps entries,
                 commit repo commit_hash = Ok c ->
                 parents c = parent :: ps ->
                 commit_diff repo c parent = Ok entries ->
                 l' = l ++ List.map (fun _ => ErrorExtractFileChange AttributeError)
                             (List.filter given_up entries)
                 /\ length fcs = length (List.filter extracted entries)))
    /\ Forall well_formed_change fcs.
Proof.
  destruct (commit repo commit_hash) as [c|e] eqn:Hc.
  - destruct (parents c) as [|parent ps] eqn:Hps.
    + exists [], l. split; [|split; [|constructor]].
      * unfold get_file_changes, try_except, bind, lift. now rewrite Hc, Hps.
      * right. split; [exists 0%nat; simpl; now rewrite app_nil_r|].
        intros c' parent' ps' entries' Hc'. inversion Hc'; subst c'.
        rewrite Hps. discriminate.
    + destruct (commit_diff repo c parent) as [entries|e] eqn:Hdiff.
      * exists (omap file_change_of entries),
          (l ++ flat_map extract_errors entries).
        split; [now apply (get_file_changes_run repo commit_hash c parent ps)|].
        split; [|apply omap_file_change_well_formed].
        right. split.
        -- exists (length (List.filter given_up entries)).
           rewrite extract_errors_given_up. f_equal.
           generalize (List.filter given_up entries). intros ds.
           induction ds as [|d ds IH]; simpl; [reflexivity|now rewrite IH].
        -- intros c' parent' ps' entries' Hc' Hps' Hdiff'.
           inversion Hc'; subst c'. rewrite Hps in Hps'.
           inversion Hps'; subst parent' ps'. rewrite Hdiff in Hdiff'.
           inversion Hdiff'; subst entries'.
           split; [now rewrite extract_errors_given_up|].
           apply omap_file_change_length.
      * exists [], (l ++ [ErrorFileChanges e]).
        split; [|split; [left; split; [now exists e|reflexivity]|constructor]].
        unfold get_file_changes, try_except, bind, lift.
        now rewrite Hc, Hps, Hdiff.
  - exists [], (l ++ [ErrorFileChanges e]).
    split; [|split; [left; split; [now exists e|reflexivity]|constructor]].
    unfold get_file_changes, try_except, bind, lift. now rewrite Hc.
Qed.

(** X8: when the identifier resolves to a commit with a parent and diffing
    it against that parent raises, [get_file_changes] returns the empty
    list and logs the exception, as it does for an unknown identifier. *)
Theorem get_file_changes_diff_failure (repo : Repo) (commit_hash : str)
    (c parent : Commit) (ps : list Commit) (e : exn) (l : log) :
  commit repo commit_hash = Ok c ->
  parents c = parent :: ps ->
  commit_diff repo c parent = Raised e ->
  get_file_changes repo commit_hash l = (Ok [], l ++ [ErrorFileChanges e]).
Proof.
  intros Hc Hps Hdiff. unfold get_file_changes, try_except, bind, lift.
  now rewrite Hc, Hps, Hdiff.
Qed.

Lemma get_file_changes_diff_failure_witness :
  get_file_changes flaky_repo (hexsha boundary_commit) []
  = (Ok [], [] ++ [ErrorFileChanges GitCommandError]).
Proof.
  apply (get_file_changes_diff_failure flaky_repo (hexsha boundary_commit)
           boundary_commit root_commit []); reflexivity.
Defined.

Lemma omap_file_change_paths (entries : list Diff) :
  List.map FileChange.file_path (omap file_change_of entries)
  = List.map entry_path (List.filter extracted entries).
Proof.
  induction entries as [|d entries IH]; simpl; [reflexivity|].
  rewrite file_change_of_eq. unfold extracted, has_patch.
  destruct (diff d) as [bs| |], (truthy (entry_path d)); simpl;
    try exact IH.
  f_equal. exact IH.
Qed.

Lemma extracted_paths_sublist (entries : list Diff) :
  sublist (List.map entry_path (List.filter extracted entries))
    (List.filter truthy (List.map entry_path entries)).
Proof.
  induction entries as [|d entries IH]; simpl; [constructor|].
  unfold extracted at 1, has_patch.
  destruct (truthy (entry_path d)) eqn:Hpath; simpl; [|exact IH].
  destruct (diff d) as [bs| |]; simpl.
  - now apply sublist_skip.
  - now apply sublist_cons.
  - now apply sublist_cons.
Qed.

Lemma extracted_given_up_count (entries : list Diff) :
  (length (List.filter extracted entries)
   + length (List.filter given_up entries)
   = length (List.filter truthy (List.map entry_path entries)))%nat.
Proof.
  induction entries as [|d entries IH]; simpl; [reflexivity|].
  unfold extracted at 1, given_up at 1, has_patch.
  destruct (truthy (entry_path d)), (diff d) as [bs| |]; simpl; lia.
Qed.

Lemma omap_file_change_all (entries : list Diff) :
  Forall (fun d => extracted d = true) entries ->
  List.map FileChange.file_path (omap file_change_of entries)
  = List.map entry_path entries
  /\ List.map FileChange.additions (omap file_change_of entries)
     = List.map entry_insertions entries
  /\ List.map FileChange.deletions (omap file_change_of entries)
     = List.map entry_deletions entries
  /\ List.filter given_up entries = [].
Proof.
  induction 1 as [|d entries Hd _ (IHp & IHa & IHd & IHg)]; simpl;
    [repeat split; reflexivity|].
  rewrite file_change_of_eq. unfold given_up at 1.
  unfold extracted, has_patch in Hd |- *.
  destruct (diff d) as [bs| |], (truthy (entry_path d)); try discriminate.
  simpl. repeat split; try assumption; f_equal; assumption.
Qed.

Lemma omap_file_change_none (entries : list Diff) :
  Forall (fun d => has_patch d = false) entries ->
  omap file_change_of entries = []
  /\ length (List.filter given_up entries)
     = length (List.filter truthy (List.map entry_path entries)).
Proof.
  induction 1 as [|d entries Hd _ [IHo IHg]]; simpl; [now split|].
  rewrite file_change_of_eq. unfold given_up at 1.
  unfold has_patch in Hd |- *.
  destruct (diff d) as [bs| |], (truthy (entry_path d)); try discriminate;
    simpl; split; try assumption; now f_equal.
Qed.

(** X9: the two entry points on a commit with a parent.  The paths of the
    records of [get_file_changes] are those of the entries of the diff that
    have a path and a byte-string [diff], in the order of the diff; they are
    among the entries of [files_changed] of the commit record that are
    neither [None] nor empty, and each of those entries that gives no
    record gives one logged [AttributeError] instead.  When every entry has
    a path and a byte-string [diff], nothing is logged, the two lists of
    paths are equal and [additions] and [deletions] of the commit record
    are the sums of those of the file records.  When no entry has a
    byte-string [diff], [get_file_changes] returns the empty list, whatever
    [files_changed] lists. *)
Theorem file_changes_agree_with_commit_info (repo : Repo) (clock : Clock)
    (commit_hash : str) (c parent : Commit) (ps : list Commit)
    (entries : list Diff) (l : log) :
  commit repo commit_hash = Ok c ->
  parents c = parent :: ps ->
  commit_diff repo c parent = Ok entries ->
  exists info fcs errors,
    commit_info_of repo clock c = Ok info
    /\ get_file_changes repo commit_hash l = (Ok fcs, l ++ errors)
    /\ errors = List.map (fun _ => ErrorExtractFileChange AttributeError)
                  (List.filter given_up entries)
    /\ List.map FileChange.file_path fcs
       = List.map entry_path (List.filter extracted entries)
    /\ sublist (List.map FileChange.file_path fcs)
         (List.filter truthy (CommitInfo.files_changed info))
    /\ (length fcs + length errors
        = length (List.filter truthy (CommitInfo.files_changed info)))%nat
    /\ (Forall (fun d => extracted d = true) entries ->
        errors = []
        /\ List.map FileChange.file_path fcs = CommitInfo.files_changed info
        /\ CommitInfo.additions info = Zsum (List.map FileChange.additions fcs)
        /\ CommitInfo.deletions info = Zsum (List.map FileChange.deletions fcs))
    /\ (Forall (fun d => has_patch d = false) entries ->
        fcs = []
        /\ length errors
           = length (List.filter truthy (CommitInfo.files_changed info))).
Proof.
  intros Hc Hps Hdiff.
  unfold commit_info_of, _extract_commit_info. rewrite Hps.
  unfold bind, lift. rewrite Hdiff, for_each_diff_body. simpl.
  eexists. exists (omap file_change_of entries).
  exists (List.map (fun _ => ErrorExtractFileChange AttributeError)
            (List.filter given_up entries)).
  split; [reflexivity|].
  split.
  { rewrite <- extract_errors_given_up.
    now apply (get_file_changes_run repo commit_hash c parent ps). }
  split; [reflexivity|].
  simpl. split; [apply omap_file_change_paths|].
  split; [rewrite omap_file_change_paths; apply extracted_paths_sublist|].
  split.
  { rewrite <- extracted_given_up_count.
    f_equal; [exact (omap_file_change_length entries)|apply length_map]. }
  split.
  - intros Hall.
    destruct (omap_file_change_all entries Hall) as (Hp & Ha & Hd & Hg).
    now rewrite Hp, Ha, Hd, Hg.
  - intros Hnone.
    destruct (omap_file_change_none entries Hnone) as [Ho Hg].
    split; [exact Ho|]. now rewrite length_map.
Qed.

Lemma file_changes_agree_with_commit_info_witness :
  exists info fcs errors,
    commit_info_of raw_repo sample_clock head_commit = Ok info
    /\ get_file_changes raw_repo (hexsha head_commit) [] = (Ok fcs, [] ++ errors)
    /\ errors = List.map (fun _ => ErrorExtractFileChange AttributeError)
                  (List.filter given_up [raw_added; raw_deleted; raw_modified])
    /\ List.map FileChange.file_path fcs
       = List.map entry_path
           (List.filter extracted [raw_added; raw_deleted; raw_modified])
    /\ sublist (List.map FileChange.file_path fcs)
         (List.filter truthy (CommitInfo.files_changed info))
    /\ (length fcs + length errors
        = length (List.filter truthy (CommitInfo.files_changed info)))%nat
    /\ (Forall (fun d => extracted d = true)
          [raw_added; raw_deleted; raw_modified] ->
        errors = []
        /\ List.map FileChange.file_path fcs = CommitInfo.files_changed info
        /\ CommitInfo.additions info = Zsum (List.map FileChange.additions fcs)
        /\ CommitInfo.deletions info = Zsum (List.map FileChange.deletions fcs))
    /\ (Forall (fun d => has_patch d = false)
          [raw_added; raw_deleted; raw_modified] ->
        fcs = []
        /\ length errors
           = length (List.filter truthy (CommitInfo.files_changed info))).
Proof.
  apply (file_changes_agree_with_commit_info raw_repo sample_clock
           (hexsha head_commit) head_commit boundary_commit []
           [raw_added; raw_deleted; raw_modified] []); reflexivity.
Defined.

(** ** The decoded diff *)

Lemma byte_val_range (b : byte) : 0 <= byte_val b < 256.
Proof.
  unfold byte_val. pose proof (Byte.to_N_bounded b) as H.
  apply N2Z.inj_le in H. simpl in H. lia.
Qed.

Lemma start_byte_ok (b : byte) :
  pending_ok (fst (start_byte b)) /\ Forall piece_ok (snd (start_byte b))
  /\ (length (decoded_text (snd (start_byte b))) <= 1)%nat.
Proof.
  unfold start_byte. pose proof (byte_val_range b) as Hb.
  set (c := byte_val b) in *.
  destruct (Z.ltb_spec c 128); [simpl; repeat split; try lia;
    repeat constructor; unfold scalar; lia|].
  destruct (Z.ltb_spec c 194); [simpl; repeat split; try lia;
    repeat constructor|].
  destruct (Z.ltb_spec c 224).
  { simpl. repeat split; try lia; [|constructor].
    exists 1. split; [now left|]. simpl. lia. }
  destruct (Z.ltb_spec c 240).
  { simpl. split; [|split; [constructor|lia]].
    destruct (Z.eqb_spec c 224), (Z.eqb_spec c 237); try lia;
      (split; [lia|]; split; [lia|]; exists 64;
       split; [right; now left|]; simpl; lia). }
  destruct (Z.ltb_spec c 245).
  { simpl. split; [|split; [constructor|lia]].
    destruct (Z.eqb_spec c 240), (Z.eqb_spec c 244); try lia;
      (split; [lia|]; split; [lia|]; exists 4096;
       split; [right; now right|]; simpl; lia). }
  simpl. repeat split; try lia; repeat constructor.
Qed.

Lemma decode_step_ok (st : dstate) (b : byte) :
  pending_ok st ->
  pending_ok (fst (decode_step st b))
  /\ Forall piece_ok (snd (decode_step st b))
  /\ (length (decoded_text (snd (decode_step st b))) <= 1)%nat.
Proof.
  destruct st as [|need cp lo hi seen]; [intros _; apply start_byte_ok|].
  intros (Hlo & Hhi & w & Hneed & Hrange). simpl.
  pose proof (byte_val_range b) as Hb. set (c := byte_val b) in *.
  destruct (Z.leb_spec lo c); simpl.
  - destruct (Z.leb_spec c hi); simpl.
    + destruct Hneed as [[-> ->]|[[-> ->]|[-> ->]]]; simpl in *.
      * split; [exact I|]. split; [|simpl; lia].
        constructor; [|constructor]. unfold piece_ok, scalar. lia.
      * repeat split; try lia; [|constructor].
        exists 1. split; [now left|]. simpl. lia.
      * repeat split; try lia; [|constructor].
        exists 64. split; [right; now left|]. simpl. lia.
    + destruct (start_byte_ok b) as (Hst & Hps & Hlen).
      destruct (start_byte b) as [st' ps]. simpl in *.
      repeat split; [exact Hst|now constructor|exact Hlen].
  - destruct (start_byte_ok b) as (Hst & Hps & Hlen).
    destruct (start_byte b) as [st' ps]. simpl in *.
    repeat split; [exact Hst|now constructor|exact Hlen].
Qed.

Lemma decoded_text_app (ps qs : list piece) :
  decoded_text (ps ++ qs) = decoded_text ps ++ decoded_text qs.
Proof.
  induction ps as [|[cp|range] ps IH]; simpl; [reflexivity| |exact IH].
  now rewrite IH.
Qed.

Lemma decoded_text_scalar (ps : list piece) :
  Forall piece_ok ps -> Forall scalar (decoded_text ps).
Proof.
  induction 1 as [|[cp|range] ps Hp _ IH]; simpl;
    [constructor|now constructor|exact IH].
Qed.

Lemma utf8_pieces_ok (bs : bytes) :
  forall st, pending_ok st ->
    Forall piece_ok (utf8_pieces st bs)
    /\ (length (decoded_text (utf8_pieces st bs)) <= length bs)%nat.
Proof.
  induction bs as [|b bs IH]; intros st Hst; simpl.
  - destruct st; simpl; split; try lia; repeat constructor.
  - destruct (decode_step_ok st b Hst) as (Hst' & Hps & Hlen).
    destruct (decode_step st b) as [st' ps]. simpl in *.
    destruct (IH st' Hst') as [Hrest Hlen'].
    split; [now apply Forall_app|].
    rewrite decoded_text_app, length_app. lia.
Qed.

(** X10: the text of a file record is always well-formed: every character
    of [diff_content] is a Unicode scalar value (no surrogate, nothing
    above U+10FFFF), whatever bytes the diff holds, and the text has at
    most as many characters as the diff has bytes.  An entry that gives a
    record has a byte string as its [diff]. *)
Theorem diff_content_scalar (d : Diff) (l l' : log) (fc : FileChange.t) :
  _extract_file_change d l = (Ok (Some fc), l') ->
  Forall scalar (FileChange.diff_content fc)
  /\ exists bs,
       diff d = DiffBytes bs
       /\ (length (FileChange.diff_content fc) <= length bs)%nat.
Proof.
  rewrite extract_file_change_log, file_change_of_eq.
  destruct (diff d) as [bs| |]; [|discriminate|discriminate].
  destruct (truthy (entry_path d)); intros H; inversion H; subst; simpl.
  destruct (utf8_pieces_ok bs Start I) as [Hok Hlen].
  split; [now apply decoded_text_scalar|]. exists bs. now split.
Qed.

Lemma diff_content_scalar_witness :
  exists fc,
    _extract_file_change latin1_entry [] = (Ok (Some fc), [])
    /\ Forall scalar (FileChange.diff_content fc)
    /\ exists bs,
         diff latin1_entry = DiffBytes bs
         /\ (length (FileChange.diff_content fc) <= length bs)%nat.
Proof.
  eexists. split; [reflexivity|].
  apply (diff_content_scalar latin1_entry [] []). reflexivity.
Defined.

Lemma utf8_pieces_ascii (bs : bytes) :
  Forall (fun b => byte_val b < 128) bs ->
  utf8_pieces Start bs = List.map (fun b => Decoded (byte_val b)) bs.
Proof.
  induction 1 as [|b bs Hb _ IH]; simpl; [reflexivity|].
  unfold start_byte. destruct (Z.ltb_spec (byte_val b) 128); [|lia].
  simpl. now rewrite IH.
Qed.

Lemma decoded_text_all (cps : list Z) :
  decoded_text (List.map Decoded cps) = cps.
Proof. induction cps as [|cp cps IH]; simpl; [reflexivity|now rewrite IH]. Qed.

(** X11: a diff made of ASCII bytes only is carried over unchanged: the
    text of the record has one character per byte, with the same value,
    and the strict decoder gives the same text. *)
Theorem diff_content_ascii (d : Diff) (bs : bytes) (l : log) :
  diff d = DiffBytes bs ->
  Forall (fun b => byte_val b < 128) bs ->
  truthy (py_or (a_path d) (b_path d)) = true ->
  exists fc,
    _extract_file_change d l = (Ok (Some fc), l)
    /\ FileChange.diff_content fc = List.map byte_val bs
    /\ decode_body Strict (diff d) = Ok (FileChange.diff_content fc).
Proof.
  intros Hbody Hascii Hpath. eexists.
  split; [now apply (extract_file_change_path d bs)|].
  simpl. rewrite (utf8_pieces_ascii _ Hascii).
  rewrite <- (map_map byte_val Decoded), decoded_text_all.
  split; [reflexivity|]. rewrite Hbody. unfold decode_body, decode_utf8.
  rewrite (utf8_pieces_ascii _ Hascii), <- (map_map byte_val Decoded).
  generalize (List.map byte_val bs). intros cps.
  induction cps as [|cp cps IH]; simpl; [reflexivity|now rewrite IH].
Qed.

Lemma diff_content_ascii_witness :
  exists fc,
    _extract_file_change modified_entry [] = (Ok (Some fc), [])
    /\ FileChange.diff_content fc
       = List.map byte_val
           [x2d; x78; x0a; x2b; x79]
    /\ decode_body Strict (diff modified_entry)
       = Ok (FileChange.diff_content fc).
Proof.
  apply (diff_content_ascii modified_entry
           [x2d; x78; x0a; x2b; x79] []).
  - reflexivity.
  - repeat constructor.
  - reflexivity.
Defined.

(** ** [get_repo_stats] *)

Lemma list_of_iter_ok (it : commit_iter) (cs : list Commit) :
  list_of_iter it = Ok cs -> it = iter_of cs StopIteration.
Proof.
  revert cs. induction it as [|c rest IH|e]; simpl; intros cs H.
  - now inversion H.
  - destruct (list_of_iter rest) as [cs'|e]; simpl in H; [|discriminate].
    inversion H; subst. simpl. now rewrite <- (IH cs').
  - discriminate.
Qed.

(** X12: when [get_repo_stats] returns statistics, the iteration over the
    history ran to its end and [total_commits] is the number of commits it
    yielded; [last_commit] carries the first eight characters of the
    [hexsha] of the head commit, its message without white space at the
    ends and its commit date; nothing is logged. *)
Theorem get_repo_stats_success (rs : RepoState) (clock : Clock)
    (l l' : list stats_log_record) (stats : RepoStats.t) :
  get_repo_stats rs clock l = (Some stats, l') ->
  l' = l
  /\ (exists cs, iter_all_commits rs = iter_of cs StopIteration
                 /\ RepoStats.total_commits stats = Z.of_nat (length cs))
  /\ branch_names rs = Ok (RepoStats.branches stats)
  /\ active_branch_name rs = Ok (RepoStats.active_branch stats)
  /\ (exists head,
        head_commit_of rs = Ok head
        /\ LastCommit.hash (RepoStats.last_commit stats) = take 8 (hexsha head)
        /\ trimmed_of (message head)
             (LastCommit.message (RepoStats.last_commit stats))
        /\ tight (LastCommit.message (RepoStats.last_commit stats))
        /\ LastCommit.date (RepoStats.last_commit stats)
           = fromtimestamp clock (committed_date head)).
Proof.
  unfold get_repo_stats, repo_stats_dict.
  destruct (list_of_iter (iter_all_commits rs)) as [cs|e] eqn:Hcs; simpl;
    [|discriminate].
  destruct (branch_names rs) as [names|e]; simpl; [|discriminate].
  destruct (active_branch_name rs) as [active|e]; simpl; [|discriminate].
  destruct (head_commit_of rs) as [head|e]; simpl; [|discriminate].
  intros H. inversion H; subst; simpl.
  destruct (strip_trimmed (message head)) as [Htrim Htight].
  split; [reflexivity|].
  split; [exists cs; split; [now apply list_of_iter_ok|reflexivity]|].
  split; [reflexivity|]. split; [reflexivity|].
  exists head. repeat split; assumption || apply Htight.
Qed.

Lemma get_repo_stats_success_witness :
  exists stats,
    get_repo_stats sample_state sample_clock [] = (Some stats, [])
    /\ RepoStats.total_commits stats = 3
    /\ LastCommit.hash (RepoStats.last_commit stats) = lit "3c4d5e6f".
Proof.
  eexists. split; [reflexivity|].
  destruct (get_repo_stats_success sample_state sample_clock [] [] _ eq_refl)
    as (_ & _ & _ & _ & head & Hhead & Hhash & _).
  split; [reflexivity|].
  rewrite Hhash. inversion Hhead. reflexivity.
Defined.



(** ** [generate_blog_post] *)

(** X14: when [get_recent_commits] returns the empty list, be it because
    the window holds no commit or because reading the history failed,
    [generate_blog_post] returns [None] after a start record and a
    no-commits warning, and calls neither the content generator nor the
    formatter (whatever they are, the outcome is the same). *)
Theorem generate_blog_post_no_commits (repo : Repo) (clock : Clock)
    (generate_blog_content :
       list CommitInfo.t -> list FileChange.t -> result (gmap str str))
    (format_blog_post : gmap str str -> result str)
    (generate_filename_from_title : str -> result str)
    (save_blog_post : str -> str -> result str)
    (days : Z) (include_file_changes : bool) (l l' : log)
    (ml : list main_log_record) :
  get_recent_commits repo clock days l = (Ok [], l') ->
  generate_blog_post repo clock generate_blog_content format_blog_post
    generate_filename_from_title save_blog_post days include_file_changes
    (l, ml)
  = (Ok None, (l', ml ++ [InfoPostStart days] ++ [WarnNoCommits days])).
Proof.
  intros Hcommits.
  unfold generate_blog_post, mtry, mbind', analyzer, main_logger, mret.
  simpl. rewrite Hcommits. simpl. now rewrite <- app_assoc.
Qed.

Lemma generate_blog_post_no_commits_witness :
  iter_commits unborn_repo (lit "main") = IterRaise GitCommandError /\
  generate_blog_post unborn_repo sample_clock sample_content sample_format
    sample_filename sample_save 7 true ([], [])
  = (Ok None, ([ErrorCommitQuery GitCommandError],
               [] ++ [InfoPostStart 7] ++ [WarnNoCommits 7])).
Proof.
  split; [reflexivity|].
  apply (generate_blog_post_no_commits unborn_repo sample_clock sample_content
           sample_format sample_filename sample_save 7 true []
           [ErrorCommitQuery GitCommandError] []).
  reflexivity.
Defined.

(** X15: [generate_blog_post] never raises, and it returns a file path
    only as the result of the whole chain: [get_recent_commits] returned a
    non-empty list; the content generator was given that list together
    with the records [get_file_changes] returned for the first eight
    characters of the newest commit's hash (or the empty list when file
    changes are excluded); the formatter formatted that content; the file
    name was made from the [title] of the content, or from the default
    title; and the path is the one [save_blog_post] returned. *)
Theorem generate_blog_post_chain (repo : Repo) (clock : Clock)
    (generate_blog_content :
       list CommitInfo.t -> list FileChange.t -> result (gmap str str))
    (format_blog_post : gmap str str -> result str)
    (generate_filename_from_title : str -> result str)
    (save_blog_post : str -> str -> result str)
    (days : Z) (include_file_changes : bool) (s : logs) :
  exists r s',
    generate_blog_post repo clock generate_blog_content format_blog_post
      generate_filename_from_title save_blog_post days include_file_changes s
    = (Ok r, s')
    /\ (forall filepath, r = Some filepath ->
        exists latest older l1 file_changes content_data formatted_post filename,
          get_recent_commits repo clock days (fst s) = (Ok (latest :: older), l1)
          /\ (if include_file_changes
              then fst (get_file_changes repo (CommitInfo.hash latest) l1)
                   = Ok file_changes
              else file_changes = [])
          /\ generate_blog_content (latest :: older) file_changes = Ok content_data
          /\ format_blog_post content_data = Ok formatted_post
          /\ generate_filename_from_title
               (default (text "오늘의 개발 일지") (content_data !! lit "title"))
             = Ok filename
          /\ save_blog_post formatted_post filename = Ok filepath).
Proof.
  unfold generate_blog_post, mtry, mbind', analyzer, main_logger, mret, collab.
  simpl.
  destruct (get_recent_commits repo clock days (fst s)) as [[commits|e0] l1]
    eqn:Hcommits; simpl.
  2:{ do 2 eexists. split; [reflexivity|discriminate]. }
  destruct commits as [|latest older]; simpl.
  { do 2 eexists. split; [reflexivity|discriminate]. }
  assert (Hfc : exists rf sf,
             collect_file_changes repo include_file_changes (latest :: older)
               (l1, (snd s ++ [InfoPostStart days])
                    ++ [InfoCommitsAnalysed (S (length older))])
             = (rf, sf)
             /\ (forall file_changes, rf = Ok file_changes ->
                 if include_file_changes
                 then fst (get_file_changes repo (CommitInfo.hash latest) l1)
                      = Ok file_changes
                 else file_changes = [])).
  { unfold collect_file_changes, mbind', analyzer, main_logger, mret.
    destruct include_file_changes; simpl.
    - destruct (get_file_changes repo (CommitInfo.hash latest) l1)
        as [[fcs|e1] l2]; simpl; do 2 eexists;
        (split; [reflexivity|]); [intros ? H; now inversion H|discriminate].
    - do 2 eexists. split; [reflexivity|]. intros ? H. now inversion H. }
  destruct Hfc as (rf & sf & -> & Hrf).
  destruct rf as [file_changes|e1]; simpl.
  2:{ do 2 eexists. split; [reflexivity|discriminate]. }
  destruct (generate_blog_content (latest :: older) file_changes)
    as [content_data|e2] eqn:Hcontent; simpl.
  2:{ do 2 eexists. split; [reflexivity|discriminate]. }
  destruct (format_blog_post content_data) as [formatted_post|e3] eqn:Hformat;
    simpl.
  2:{ do 2 eexists. split; [reflexivity|discriminate]. }
  destruct (generate_filename_from_title _) as [filename|e4] eqn:Hname; simpl.
  2:{ do 2 eexists. split; [reflexivity|discriminate]. }
  destruct (save_blog_post formatted_post filename) as [filepath|e5] eqn:Hsave;
    simpl.
  2:{ do 2 eexists. split; [reflexivity|discriminate]. }
  do 2 eexists. split; [reflexivity|].
  intros p Hp. inversion Hp; subst.
  exists latest, older, l1, file_changes, content_data, formatted_post, filename.
  repeat split; try assumption. now apply Hrf.
Qed.

Lemma generate_blog_post_chain_witness :
  exists filepath s',
    generate_blog_post sample_repo sample_clock sample_content sample_format
      sample_filename sample_save 7 true ([], [])
    = (Ok (Some filepath), s')
    /\ exists latest older l1 file_changes content_data formatted_post filename,
         get_recent_commits sample_repo sample_clock 7 []
         = (Ok (latest :: older), l1)
         /\ fst (get_file_changes sample_repo (CommitInfo.hash latest) l1)
            = Ok file_changes
         /\ sample_content (latest :: older) file_changes = Ok content_data
         /\ sample_format content_data = Ok formatted_post
         /\ sample_filename
              (default (text "오늘의 개발 일지") (content_data !! lit "title"))
            = Ok filename
         /\ sample_save formatted_post filename = Ok filepath.
Proof.
  destruct (generate_blog_post_chain sample_repo sample_clock sample_content
              sample_format sample_filename sample_save 7 true ([], []))
    as (r & s' & Hrun & Hchain).
  vm_compute in Hrun. inversion Hrun as [[Hr Hs]].
  eexists. eexists. split; [reflexivity|].
  apply Hchain. symmetry. exact Hr.
Defined.

Example improve_lists_sample :
  _improve_lists sample_notes
  = lit "Changes" ++ [10] ++ lit "- fix stats" ++ [10] ++ lit "- add tests"
    ++ [10] ++ [10] ++ lit "Next week" ++ [10] ++ lit "  - plan" ++ [10]
    ++ [10] ++ lit "done".
Proof. vm_compute. reflexivity. Qed.

(** ** [_improve_lists] *)

Lemma improve_loop_lines (todo : list str) :
  forall (pre improved_lines : list str),
    improve_loop (pre ++ todo) (length pre) todo improved_lines
    = improved_lines ++ improve_lines todo.
Proof.
  induction todo as [|line todo IH]; intros pre improved_lines.
  - simpl. now rewrite app_nil_r.
  - cbn [improve_loop].
    replace (pre ++ line :: todo) with ((pre ++ [line]) ++ todo)
      by now rewrite <- app_assoc.
    replace (S (length pre)) with (length (pre ++ [line]))
      by (rewrite length_app; simpl; lia).
    rewrite IH. cbn [improve_lines]. unfold improve_step.
    rewrite !length_app.
    destruct todo as [|following rest].
    + replace (length pre <? length pre + length [line] + length (@nil str) - 1)%nat
        with false by (symmetry; apply Nat.ltb_ge; simpl; lia).
      rewrite andb_false_r. simpl. now rewrite <- app_assoc.
    + replace (length pre <? length pre + length [line]
                 + length (following :: rest) - 1)%nat
        with true by (symmetry; apply Nat.ltb_lt; simpl; lia).
      rewrite andb_true_r.
      replace (((pre ++ [line]) ++ following :: rest) !! S (length pre))
        with (Some following).
      2:{ rewrite <- app_assoc. simpl.
          rewrite lookup_app_r by lia.
          replace (S (length pre) - length pre)%nat with 1%nat by lia.
          reflexivity. }
      fold (is_item following).
      destruct (is_item line); simpl;
        [|now rewrite <- app_assoc].
      destruct (nonempty (strip following) && negb (is_item following));
        simpl; now rewrite <- !app_assoc.
Qed.

Lemma improve_lists_lines (content : str) :
  _improve_lists content = join_lines (improve_lines (split_lines content)).
Proof.
  unfold _improve_lists.
  exact (f_equal join_lines (improve_loop_lines (split_lines content) [] [])).
Qed.

Lemma split_lines_nonempty (s : str) : split_lines s <> [].
Proof.
  destruct s as [|c s]; simpl; [discriminate|].
  destruct (c =? 10); [discriminate|].
  destruct (split_lines s); discriminate.
Qed.

Lemma join_lines_cons (c : Z) (line : str) (lines : list str) :
  join_lines ((c :: line) :: lines) = c :: join_lines (line :: lines).
Proof. destruct lines; reflexivity. Qed.

Lemma join_split (s : str) : join_lines (split_lines s) = s.
Proof.
  induction s as [|c s IH]; [reflexivity|]. simpl.
  pose proof (split_lines_nonempty s) as Hne.
  destruct (Z.eqb_spec c 10) as [->|Hc].
  - destruct (split_lines s) as [|line lines]; [contradiction|].
    simpl in *. now rewrite IH.
  - destruct (split_lines s) as [|line lines]; [contradiction|].
    now rewrite join_lines_cons, IH.
Qed.

Lemma split_one_line (line : str) : one_line line -> split_lines line = [line].
Proof.
  induction 1 as [|c line Hc _ IH]; [reflexivity|]. simpl.
  destruct (Z.eqb_spec c 10); [contradiction|]. now rewrite IH.
Qed.

Lemma split_line_break (line s : str) :
  one_line line -> split_lines (line ++ 10 :: s) = line :: split_lines s.
Proof.
  induction 1 as [|c line Hc _ IH]; [reflexivity|]. simpl.
  destruct (Z.eqb_spec c 10); [contradiction|]. now rewrite IH.
Qed.

Lemma split_join (lines : list str) :
  lines <> [] -> Forall one_line lines ->
  split_lines (join_lines lines) = lines.
Proof.
  intros Hne Hall. induction Hall as [|line lines Hline Hall IH];
    [contradiction|].
  destruct lines as [|line' lines'].
  - simpl. now apply split_one_line.
  - change (join_lines (line :: line' :: lines'))
      with (line ++ 10 :: join_lines (line' :: lines')).
    rewrite split_line_break by assumption.
    now rewrite IH.
Qed.

Lemma split_lines_one_line (s : str) : Forall one_line (split_lines s).
Proof.
  induction s as [|c s IH]; simpl; [repeat constructor|].
  destruct (Z.eqb_spec c 10); [constructor; [constructor|exact IH]|].
  destruct (split_lines s) as [|line lines]; [repeat constructor; assumption|].
  inversion IH; subst. constructor; [now constructor|assumption].
Qed.

Lemma improve_lines_one_line (lines : list str) :
  Forall one_line lines -> Forall one_line (improve_lines lines).
Proof.
  induction 1 as [|line rest Hline Hrest IH]; simpl; [constructor|].
  constructor; [exact Hline|]. apply Forall_app. split; [|exact IH].
  destruct rest as [|following rest']; [constructor|].
  destruct (_ && _); repeat constructor.
Qed.

Lemma improve_lines_nonempty (lines : list str) :
  lines <> [] -> improve_lines lines <> [].
Proof. destruct lines; [contradiction|discriminate]. Qed.

Lemma split_improve_lists (content : str) :
  split_lines (_improve_lists content) = improve_lines (split_lines content).
Proof.
  rewrite improve_lists_lines. apply split_join.
  - apply improve_lines_nonempty, split_lines_nonempty.
  - apply improve_lines_one_line, split_lines_one_line.
Qed.

Lemma improve_lines_keeps (lines : list str) :
  List.filter nonempty (improve_lines lines) = List.filter nonempty lines
  /\ sublist lines (improve_lines lines).
Proof.
  induction lines as [|line rest [IHf IHs]]; [split; [reflexivity|constructor]|].
  cbn [improve_lines]. split.
  - assert (Hcons : forall (x : str) (l : list str),
               List.filter nonempty (x :: l)
               = if nonempty x then x :: List.filter nonempty l
                 else List.filter nonempty l) by reflexivity.
    rewrite !Hcons, List.filter_app.
    assert (Hrest : forall ins : list str,
               List.filter nonempty ins = [] ->
               List.filter nonempty ins
               ++ List.filter nonempty (improve_lines rest)
               = List.filter nonempty rest).
    { intros ins ->. exact IHf. }
    rewrite Hrest; [reflexivity|].
    destruct rest as [|following rest']; [reflexivity|].
    destruct (_ && _); reflexivity.
  - apply sublist_skip.
    destruct rest as [|following rest']; [exact IHs|].
    destruct (_ && _); [apply sublist_cons|]; exact IHs.
Qed.

(** X16: [_improve_lists] only adds blank lines.  The lines of its result,
    blank lines left aside, are the lines of the content, blank lines left
    aside; and every line of the content is still there, in the same
    order. *)
Theorem improve_lists_keeps_lines (content : str) :
  List.filter nonempty (split_lines (_improve_lists content))
  = List.filter nonempty (split_lines content)
  /\ sublist (split_lines content) (split_lines (_improve_lists content)).
Proof.
  rewrite split_improve_lists. apply improve_lines_keeps.
Qed.

Lemma strip_nil_nonempty (s : str) : nonempty (strip s) = false -> strip s = [].
Proof. destruct (strip s); [reflexivity|discriminate]. Qed.

Lemma is_item_nil : is_item [] = false.
Proof. reflexivity. Qed.

Lemma improve_lines_spaced (lines : list str) : spaced (improve_lines lines).
Proof.
  induction lines as [|line rest IH]; [exact I|].
  cbn [improve_lines].
  destruct rest as [|following rest']; [simpl; auto|].
  destruct (is_item line && nonempty (strip following)
            && negb (is_item following)) eqn:Hcond.
  - cbn [app]. split; [intros _; now left|].
    split; [|exact IH]. cbn [improve_lines]. rewrite is_item_nil. discriminate.
  - cbn [app]. split; [|exact IH]. cbn [improve_lines]. intros Hitem.
    rewrite Hitem in Hcond. simpl in Hcond.
    destruct (nonempty (strip following)) eqn:Hne; simpl in Hcond.
    + right. now destruct (is_item following).
    + left. now apply strip_nil_nonempty.
Qed.

Lemma improve_lines_fixed (lines : list str) :
  spaced lines -> improve_lines lines = lines.
Proof.
  induction lines as [|line rest IH]; [reflexivity|].
  intros [Hhead Hrest]. cbn [improve_lines]. rewrite (IH Hrest).
  destruct rest as [|following rest']; [reflexivity|].
  destruct (is_item line) eqn:Hitem; [|reflexivity].
  destruct (Hhead eq_refl) as [Hblank|Hnext].
  - rewrite Hblank. reflexivity.
  - rewrite Hnext, andb_false_r. reflexivity.
Qed.

(** X17: after [_improve_lists] no list item is directly followed by a
    line of text: the line after a list item is blank or is a list item
    itself. *)
Theorem improve_lists_spaced (content : str) :
  spaced (split_lines (_improve_lists content)).
Proof.
  rewrite split_improve_lists. apply improve_lines_spaced.
Qed.

(** X18: [_improve_lists] leaves a content unchanged when no list item of
    it is directly followed by a line of text, a content without list
    items for one; applying it twice is the same as applying it once. *)
Theorem improve_lists_idempotent (content : str) :
  (spaced (split_lines content) -> _improve_lists content = content)
  /\ _improve_lists (_improve_lists content) = _improve_lists content.
Proof.
  assert (Hfixed : forall c, spaced (split_lines c) -> _improve_lists c = c).
  { intros c Hc. rewrite improve_lists_lines, improve_lines_fixed by assumption.
    apply join_split. }
  split; [apply Hfixed|]. apply Hfixed, improve_lists_spaced.
Qed.

Lemma improve_lists_idempotent_witness :
  _improve_lists (lit "- a" ++ [10] ++ lit "- b" ++ [10] ++ [10] ++ lit "text")
  = lit "- a" ++ [10] ++ lit "- b" ++ [10] ++ [10] ++ lit "text".
Proof.
  apply (proj1 (improve_lists_idempotent _)).
  vm_compute. repeat split; intros H; try discriminate H; auto.
Defined.

(** ** [ContentGenerator] *)

Lemma all_strings_none (items : list (option str)) :
  In None items -> all_strings items = Raised TypeError.
Proof.
  induction items as [|[item|] items IH]; simpl; [contradiction| |reflexivity].
  intros [H|H]; [discriminate|]. now rewrite IH.
Qed.

Lemma all_strings_some (items : list (option str)) :
  ~ In None items -> exists files, all_strings items = Ok files.
Proof.
  induction items as [|[item|] items IH]; simpl; intros H.
  - now exists [].
  - destruct IH as [files ->]; [tauto|]. now exists (item :: files).
  - tauto.
Qed.

Lemma classic_none (items : list (option str)) :
  In None items \/ ~ In None items.
Proof.
  induction items as [|[item|] items [IH|IH]]; simpl;
    [right; tauto|left; tauto|right; intros [H|H]; [discriminate|tauto]
    |left; tauto|left; tauto].
Qed.

Lemma format_commit_cases (strftime : Z -> str) (commit : CommitInfo.t) :
  (In None (CommitInfo.files_changed commit) ->
   format_commit strftime commit = Raised TypeError)
  /\ (~ In None (CommitInfo.files_changed commit) ->
      exists s, format_commit strftime commit = Ok s).
Proof.
  unfold format_commit. split; intros H.
  - now rewrite all_strings_none.
  - destruct (all_strings_some _ H) as [files ->]. simpl. now eexists.
Qed.

Lemma format_each_commits (strftime : Z -> str) (commits : list CommitInfo.t) :
  (Exists (fun c => In None (CommitInfo.files_changed c)) commits ->
   format_each (format_commit strftime) commits = Raised TypeError)
  /\ (Forall (fun c => ~ In None (CommitInfo.files_changed c)) commits ->
      exists ss, format_each (format_commit strftime) commits = Ok ss).
Proof.
  induction commits as [|c commits [IHbad IHgood]]; simpl.
  - split; [intros H; inversion H|now exists []].
  - destruct (format_commit_cases strftime c) as [Hbad Hgood]. split.
    + intros H.
      destruct (classic_none (CommitInfo.files_changed c)) as [Hc|Hc].
      * now rewrite Hbad.
      * destruct (Hgood Hc) as [s ->]. simpl.
        inversion H as [? ? Hhead|? ? Htail]; subst; [contradiction|].
        now rewrite IHbad.
    + intros H. inversion H as [|? ? Hc Hrest]; subst.
      destruct (Hgood Hc) as [s ->]. destruct (IHgood Hrest) as [ss ->].
      simpl. now eexists.
Qed.

(** X19: [_format_commits_for_llm] raises a [TypeError] exactly when some
    commit record lists [None] among its changed files (the join of the
    paths fails on it); on every other list of records it returns a text. *)
Theorem format_commits_type_error (strftime : Z -> str)
    (commits : list CommitInfo.t) :
  (Exists (fun c => In None (CommitInfo.files_changed c)) commits ->
   _format_commits_for_llm strftime commits = Raised TypeError)
  /\ (Forall (fun c => ~ In None (CommitInfo.files_changed c)) commits ->
      exists s, _format_commits_for_llm strftime commits = Ok s).
Proof.
  destruct (format_each_commits strftime commits) as [Hbad Hgood].
  unfold _format_commits_for_llm. destruct commits as [|c commits].
  - split; [intros H; inversion H|now eexists].
  - split; intros H.
    + now rewrite Hbad.
    + destruct (Hgood H) as [ss ->]. simpl. now eexists.
Qed.

Lemma format_commits_type_error_witness :
  _format_commits_for_llm sample_strftime [pathless_info] = Raised TypeError.
Proof.
  apply (proj1 (format_commits_type_error sample_strftime [pathless_info])).
  constructor. simpl. tauto.
Defined.

Lemma generate_title_returns (chat : chat_kind -> str -> result str)
    (commits : list CommitInfo.t) (l : list content_log_record) :
  exists title l', _generate_title chat commits l = (Ok title, l').
Proof.
  unfold _generate_title. destruct commits as [|c commits];
    [now do 2 eexists|].
  unfold ctry, cbind, clift, clog, cret.
  destruct (chat TitleRequest _); now do 2 eexists.
Qed.

Lemma generate_content_returns (chat : chat_kind -> str -> result str)
    (commit_summary : str) (l : list content_log_record) :
  exists content l', _generate_content chat commit_summary l = (Ok content, l').
Proof.
  unfold _generate_content, ctry, cbind, clift, clog, cret.
  destruct (chat BodyRequest _); now do 2 eexists.
Qed.

(** X20: [generate_blog_content] never raises, and the dictionary it
    returns always has a [title] and a [content], together with either
    [generated_at] or [error], never both. *)
Theorem generate_blog_content_keys (chat : chat_kind -> str -> result str)
    (strftime : Z -> str) (now_isoformat : str) (exn_text : exn -> str)
    (commits : list CommitInfo.t) (file_changes : list FileChange.t)
    (l : list content_log_record) :
  exists (data : gmap str str) l',
    generate_blog_content chat strftime now_isoformat exn_text commits
      file_changes l = (Ok data, l')
    /\ is_Some (data !! lit "title")
    /\ is_Some (data !! lit "content")
    /\ (is_Some (data !! lit "generated_at") /\ data !! lit "error" = None
        \/ is_Some (data !! lit "error") /\ data !! lit "generated_at" = None).
Proof.
  unfold generate_blog_content, ctry. unfold cbind at 1. unfold clift at 1.
  destruct (_format_commits_for_llm strftime commits) as [summary|e].
  - unfold cbind at 1.
    destruct (generate_title_returns chat commits l) as (title & l1 & ->).
    unfold cbind at 1.
    match goal with
    | |- context [_generate_content chat ?s l1] =>
        destruct (generate_content_returns chat s l1) as (content & l2 & ->)
    end.
    unfold cret. do 2 eexists. split; [reflexivity|].
    repeat split; try (eexists; reflexivity). left.
    split; [eexists|]; reflexivity.
  - unfold cbind, clog, cret. do 2 eexists. split; [reflexivity|].
    repeat split; try (eexists; reflexivity). right.
    split; [eexists|]; reflexivity.
Qed.

(** X21: when some commit record lists [None] among its changed files,
    [generate_blog_content] returns the fixed fall-back dictionary (default
    title, error notice as content, the text of the [TypeError] under
    [error]) and logs one error record; the model is not asked for
    anything, so the result is the same whatever it would answer. *)
Theorem generate_blog_content_fallback (chat : chat_kind -> str -> result str)
    (strftime : Z -> str) (now_isoformat : str) (exn_text : exn -> str)
    (commits : list CommitInfo.t) (file_changes : list FileChange.t)
    (l : list content_log_record) :
  Exists (fun c => In None (CommitInfo.files_changed c)) commits ->
  generate_blog_content chat strftime now_isoformat exn_text commits
    file_changes l
  = (Ok (<[ lit "title" := text "오늘의 개발 일지" ]>
           (<[ lit "content" := text "내용 생성 중 오류가 발생했습니다." ]>
              {[ lit "error" := exn_text TypeError ]})),
     l ++ [ErrorBlogContent TypeError]).
Proof.
  intros Hnone.
  destruct (format_each_commits strftime commits) as [Hbad _].
  unfold generate_blog_content, ctry, cbind, clift, clog, cret,
    _format_commits_for_llm.
  destruct commits as [|c commits]; [inversion Hnone|].
  now rewrite (Hbad Hnone).
Qed.

Lemma generate_blog_content_fallback_witness :
  generate_blog_content sample_chat sample_strftime (lit "1970-01-11T09:00:00")
    sample_exn_text [pathless_info] [] []
  = (Ok (<[ lit "title" := text "오늘의 개발 일지" ]>
           (<[ lit "content" := text "내용 생성 중 오류가 발생했습니다." ]>
              {[ lit "error" := sample_exn_text TypeError ]})),
     [] ++ [ErrorBlogContent TypeError]).
Proof.
  apply (generate_blog_content_fallback sample_chat sample_strftime
           (lit "1970-01-11T09:00:00") sample_exn_text [pathless_info] [] []).
  constructor. simpl. tauto.
Defined.

Lemma commit_info_files_root (repo : Repo) (clock : Clock) (c : Commit)
    (info : CommitInfo.t) :
  parents c = [] ->
  commit_info_of repo clock c = Ok info ->
  exists files,
    commit_stats_files repo c = Ok files
    /\ CommitInfo.files_changed info = List.map (fun kv => Some (fst kv)) files.
Proof.
  intros Hroot. unfold commit_info_of, _extract_commit_info. rewrite Hroot.
  unfold bind at 1.
  destruct (commit_stats_files repo c) as [files|e] eqn:Hfiles.
  - rewrite (root_stats_run repo c files [] Hfiles). simpl.
    intros H. inversion H; subst. now exists files.
  - unfold root_stats, bind, lift. rewrite Hfiles. discriminate.
Qed.

Lemma commit_info_files_parent (repo : Repo) (clock : Clock) (c parent : Commit)
    (ps : list Commit) (entries : list Diff) (info : CommitInfo.t) :
  parents c = parent :: ps ->
  commit_diff repo c parent = Ok entries ->
  commit_info_of repo clock c = Ok info ->
  CommitInfo.files_changed info = List.map entry_path entries.
Proof.
  intros Hps Hdiff. unfold commit_info_of, _extract_commit_info. rewrite Hps.
  unfold bind, lift. rewrite Hdiff, for_each_diff_body. simpl.
  intros H. now inversion H.
Qed.

(** X22: which records of the analyzer the content generator can format.
    The record of a commit without parents always formats.  The record of
    a commit with a parent fails to format, with a [TypeError], exactly
    when some entry of its diff has no usable path: an [a_path] that is
    [None] or empty together with a [b_path] that is [None]. *)
Theorem commit_record_formats (repo : Repo) (clock : Clock)
    (strftime : Z -> str) (c : Commit) (info : CommitInfo.t) :
  commit_info_of repo clock c = Ok info ->
  (parents c = [] -> exists s, format_commit strftime info = Ok s)
  /\ (forall parent ps entries,
        parents c = parent :: ps ->
        commit_diff repo c parent = Ok entries ->
        (format_commit strftime info = Raised TypeError
         <-> Exists (fun d => truthy (a_path d) = false /\ b_path d = None)
               entries)).
Proof.
  intros Hinfo. destruct (format_commit_cases strftime info) as [Hbad Hgood].
  split.
  - intros Hroot.
    destruct (commit_info_files_root repo clock c info Hroot Hinfo)
      as (files & _ & Hfiles).
    apply Hgood. rewrite Hfiles. intros Hin.
    apply in_map_iff in Hin as (kv & Hkv & _). discriminate.
  - intros parent ps entries Hps Hdiff.
    rewrite (commit_info_files_parent repo clock c parent ps entries info
               Hps Hdiff Hinfo) in Hbad, Hgood.
    assert (Hiff : In None (List.map entry_path entries)
                   <-> Exists (fun d => truthy (a_path d) = false
                                        /\ b_path d = None) entries).
    { rewrite in_map_iff, List.Exists_exists. unfold entry_path, py_or.
      split; intros (d & H1 & H2); exists d.
      - split; [exact H2|].
        destruct (truthy (a_path d)) eqn:Ha; [|now split].
        rewrite H1 in Ha. discriminate.
      - destruct H2 as [Ha Hb]. rewrite Ha. now split. }
    split.
    + intros Hraise. apply Hiff.
      destruct (classic_none (List.map entry_path entries)) as [H|H];
        [exact H|].
      destruct (Hgood H) as [s Hs]. rewrite Hs in Hraise. discriminate.
    + intros H. apply Hbad, Hiff, H.
Qed.

Lemma commit_record_formats_witness :
  exists info,
    commit_info_of sample_repo sample_clock root_commit = Ok info
    /\ exists s, format_commit sample_strftime info = Ok s.
Proof.
  eexists. split; [reflexivity|].
  apply (proj1 (commit_record_formats sample_repo sample_clock sample_strftime
                  root_commit _ eq_refl)).
  reflexivity.
Defined.

Lemma get_file_changes_forall (repo : Repo) (commit_hash : str) (l l' : log)
    (fcs : list FileChange.t) :
  get_file_changes repo commit_hash l = (Ok fcs, l') ->
  Forall well_formed_change fcs.
Proof.
  unfold get_file_changes, try_except, bind, lift.
  destruct (commit repo commit_hash) as [c|e]; simpl.
  2:{ unfold logger, ret. simpl. intros H. inversion H. constructor. }
  destruct (parents c) as [|parent ps]; simpl.
  { unfold ret. intros H. inversion H. constructor. }
  destruct (commit_diff repo c parent) as [entries|e]; simpl.
  - rewrite for_each_change_body. intros H. inversion H; subst.
    apply omap_file_change_well_formed.
  - unfold logger, ret. simpl. intros H. inversion H. constructor.
Qed.

(** X23: every record [get_file_changes] returns is rendered by
    [_format_file_changes_for_llm] with its real path and with one of the
    three words for its change type; the fall-backs of the formatter (the
    text [None] for a missing path, the bare letter for an unknown type)
    are never used on the analyzer's records. *)
Theorem file_changes_render (repo : Repo) (commit_hash : str) (l l' : log)
    (fcs : list FileChange.t) :
  get_file_changes repo commit_hash l = (Ok fcs, l') ->
  Forall (fun fc =>
            (exists path, FileChange.file_path fc = Some path
                          /\ path <> []
                          /\ format_value (FileChange.file_path fc) = path)
            /\ (change_type_text (FileChange.change_type fc) = text "추가"
                \/ change_type_text (FileChange.change_type fc) = text "삭제"
                \/ change_type_text (FileChange.change_type fc) = text "수정"))
    fcs.
Proof.
  intros H. apply get_file_changes_forall in H.
  eapply Forall_impl; [exact H|]. simpl. intros fc [Hpath Htype]. split.
  - destruct (FileChange.file_path fc) as [[|ch path]|]; try discriminate.
    exists (ch :: path). repeat split. discriminate.
  - destruct Htype as [Ht|[Ht|Ht]]; rewrite Ht;
      [left|right; left|right; right]; vm_compute; reflexivity.
Qed.

Lemma file_changes_render_witness :
  Forall (fun fc =>
            (exists path, FileChange.file_path fc = Some path
                          /\ path <> []
                          /\ format_value (FileChange.file_path fc) = path)
            /\ (change_type_text (FileChange.change_type fc) = text "추가"
                \/ change_type_text (FileChange.change_type fc) = text "삭제"
                \/ change_type_text (FileChange.change_type fc) = text "수정"))
    (match fst (get_file_changes sample_repo (hexsha head_commit) []) with
     | Ok fcs => fcs
     | Raised _ => []
     end).
Proof.
  apply (file_changes_render sample_repo (hexsha head_commit) [] []).
  reflexivity.
Defined.

(** ** [create_summary_file] and [generate_multiple_posts] *)

Lemma generate_blog_post_returns (repo : Repo) (clock : Clock)
    (generate_blog_content :
       list CommitInfo.t -> list FileChange.t -> result (gmap str str))
    (format_blog_post : gmap str str -> result str)
    (generate_filename_from_title : str -> result str)
    (save_blog_post : str -> str -> result str)
    (days : Z) (include_file_changes : bool) (s : logs) :
  exists r s',
    generate_blog_post repo clock generate_blog_content format_blog_post
      generate_filename_from_title save_blog_post days include_file_changes s
    = (Ok r, s').
Proof.
  unfold generate_blog_post, mtry.
  match goal with
  | |- context [match ?body s with _ => _ end] =>
      destruct (body s) as [[r|e] s']
  end.
  - now do 2 eexists.
  - unfold mbind', main_logger, mret. simpl. now do 2 eexists.
Qed.

Lemma posts_loop_returns (repo : Repo) (clock : Clock)
    (generate_blog_content :
       list CommitInfo.t -> list FileChange.t -> result (gmap str str))
    (format_blog_post : gmap str str -> result str)
    (generate_filename_from_title : str -> result str)
    (save_blog_post : str -> str -> result str)
    (include_file_changes : bool) (days_list : list Z) :
  forall (generated_posts : list str) (s : logs),
    exists posts s',
      posts_loop repo clock generate_blog_content format_blog_post
        generate_filename_from_title save_blog_post include_file_changes
        days_list generated_posts s = (Ok posts, s').
Proof.
  induction days_list as [|days days_list IH]; intros generated_posts s.
  - now do 2 eexists.
  - cbn [posts_loop]. unfold mbind' at 1. unfold main_logger at 1.
    unfold mbind' at 1.
    destruct (generate_blog_post_returns repo clock generate_blog_content
                format_blog_post generate_filename_from_title save_blog_post
                days include_file_changes
                (fst s, snd s ++ [InfoPeriodStart days])) as (r & s1 & ->).
    apply IH.
Qed.

(** X24: [create_summary_file] needs dictionaries and
    [generate_multiple_posts] hands it file paths, so the summary is never
    written.  When no post was generated, [generate_multiple_posts] returns
    the empty list; as soon as one post was generated, the call raises an
    [AttributeError], which [create_summary_file] logs, and the paths of the
    posts already saved are not returned.  In both cases the summary file
    is neither opened nor written. *)
Theorem generate_multiple_posts_summary (output_dir now_text : str)
    (open_for_writing : str -> result unit)
    (write_to : str -> str -> result unit)
    (repo : Repo) (clock : Clock)
    (generate_blog_content :
       list CommitInfo.t -> list FileChange.t -> result (gmap str str))
    (format_blog_post : gmap str str -> result str)
    (generate_filename_from_title : str -> result str)
    (save_blog_post : str -> str -> result str)
    (days_list : list Z) (include_file_changes : bool) (s : logs)
    (w : formatter_world) :
  exists posts s',
    posts_loop repo clock generate_blog_content format_blog_post
      generate_filename_from_title save_blog_post include_file_changes
      days_list [] s = (Ok posts, s')
    /\ generate_multiple_posts output_dir now_text open_for_writing write_to
         repo clock generate_blog_content format_blog_post
         generate_filename_from_title save_blog_post days_list
         include_file_changes s w
       = match posts with
         | [] => (Ok [], s', w)
         | _ :: _ =>
             (Raised AttributeError, s',
              mkWorld (formatter_log w ++ [ErrorSummary AttributeError])
                (fs_events w))
         end.
Proof.
  destruct (posts_loop_returns repo clock generate_blog_content
              format_blog_post generate_filename_from_title save_blog_post
              include_file_changes days_list [] s) as (posts & s' & Hloop).
  exists posts, s'. split; [exact Hloop|].
  unfold generate_multiple_posts. rewrite Hloop.
  destruct posts as [|path posts]; reflexivity.
Qed.

Lemma generate_multiple_posts_summary_witness :
  exists path s',
    generate_multiple_posts (lit "./output") (lit "1970-01-11 09:00:00")
      sample_open sample_write sample_repo sample_clock sample_content
      sample_format sample_filename sample_save [7] true ([], [])
      (mkWorld [] [])
    = (Raised AttributeError, s',
       mkWorld ([] ++ [ErrorSummary AttributeError]) [])
    /\ posts_loop sample_repo sample_clock sample_content sample_format
         sample_filename sample_save true [7] [] ([], [])
       = (Ok [path], s').
Proof.
  destruct (generate_multiple_posts_summary (lit "./output")
              (lit "1970-01-11 09:00:00") sample_open sample_write
              sample_repo sample_clock sample_content sample_format
              sample_filename sample_save [7] true ([], []) (mkWorld [] []))
    as (posts & s' & Hloop & Hrun).
  vm_compute in Hloop. inversion Hloop as [[Hposts Hs]].
  rewrite <- Hposts in Hrun.
  eexists. exists s'. split; [exact Hrun|].
  rewrite <- Hs. vm_compute. reflexivity.
Defined.
